(** * Layer-2 page: the statistics boxes and the product sections

    A shallow embedding of the logic of [src/pages/layer-2.tsx]:
    the two asynchronous derivations started by the page's [useEffect]
    ([fetchL2Beat] and [fetchCryptoStats]), the three [useState] cells they
    write, and the two [filter] predicates that split the product cards.

    JavaScript numbers are IEEE 754 binary64 values.  They are modelled by
    [spec_float] with the operations of [SpecFloat] at precision 53, which
    compute inside Rocq and need no axiom. *)

From Stdlib Require Import ZArith List String Ascii Bool Lia Permutation.
From Stdlib Require Import SpecFloat DecimalString QArith Qabs.
Import ListNotations.

Close Scope Q_scope.

Local Open Scope string_scope.

(** ** JavaScript numbers *)

Module Number.

Definition prec : Z := 53.
Definition emax : Z := 1024.

Definition number : Type := spec_float.

Definition NaN : number := S754_nan.
Definition zero : number := S754_zero false.

Definition add : number -> number -> number := SFadd prec emax.
Definition sub : number -> number -> number := SFsub prec emax.
Definition mul : number -> number -> number := SFmul prec emax.
Definition div : number -> number -> number := SFdiv prec emax.

(** [x > y]; false as soon as one side is NaN. *)
Definition gtb (x y : number) : bool := SFltb y x.

(** [x < y]; false as soon as one side is NaN. *)
Definition ltb (x y : number) : bool := SFltb x y.

(** The number denoted by an integer literal, or by an array length. *)
Definition of_Z (z : Z) : number := binary_normalize prec emax z 0 false.
Definition of_nat (n : nat) : number := of_Z (Z.of_nat n).

Definition is_nan (x : number) : bool :=
  match x with S754_nan => true | _ => false end.

Definition is_finite (x : number) : bool :=
  match x with
  | S754_zero _ | S754_finite _ _ _ => true
  | S754_infinity _ | S754_nan => false
  end.

(** [|x| >= 10^21] for the finite value [m * 2^e]. *)
Definition ge_1e21 (m : positive) (e : Z) : bool :=
  match e with
  | Zneg p => (10 ^ 21 * 2 ^ Zpos p <=? Zpos m)%Z
  | _ => (10 ^ 21 <=? Zpos m * 2 ^ e)%Z
  end.

Definition below_1e21 (x : number) : bool :=
  match x with
  | S754_finite _ m e => negb (ge_1e21 m e)
  | S754_zero _ => true
  | _ => false
  end.

(** Zero of either sign, or a finite number above zero. *)
Definition finite_nonneg (x : number) : bool :=
  match x with
  | S754_zero _ | S754_finite false _ _ => true
  | _ => false
  end.

(** The same, or plus infinity; in particular not NaN. *)
Definition nonneg (x : number) : bool :=
  match x with
  | S754_zero _ | S754_finite false _ _ | S754_infinity false => true
  | _ => false
  end.

(** A binary64 value above zero, in the one form binary64 stores it in. *)
Definition positive_value (x : number) : bool :=
  match x with
  | S754_finite false m e => bounded prec emax m e
  | _ => false
  end.

Definition is_zero (x : number) : bool :=
  match x with S754_zero _ => true | _ => false end.

(** Not NaN, and of sign [sx]. *)
Definition has_sign (sx : bool) (x : number) : bool :=
  match x with
  | S754_nan => false
  | S754_zero s | S754_infinity s | S754_finite s _ _ => Bool.eqb s sx
  end.

(** *** Number.prototype.toFixed *)

(** The integer [n] for which [n / 10^f - m * 2^e] is as close to zero as
    possible, the larger one when there are two. *)
Definition nearest_scaled (m : positive) (e : Z) (f : nat) : Z :=
  let s := (Zpos m * 10 ^ Z.of_nat f)%Z in
  match e with
  | Zneg p => ((2 * s + 2 ^ Zpos p) / 2 ^ (Zpos p + 1))%Z
  | _ => (s * 2 ^ e)%Z
  end.

Definition decimal (n : Z) : string :=
  NilZero.string_of_uint (N.to_uint (Z.to_N n)).

Fixpoint zeros (k : nat) : string :=
  match k with
  | O => ""
  | S k' => String "0" (zeros k')
  end.

Fixpoint split_at (k : nat) (s : string) : string * string :=
  match k, s with
  | S k', String c s' => let (a, b) := split_at k' s' in (String c a, b)
  | _, _ => ("", s)
  end.

(** Steps 10.b to 10.d of the standard algorithm: the digits of [n], padded
    on the left with zeros to [f + 1] characters, with a point before the
    last [f] of them. *)
Definition fixed_digits (n : Z) (f : nat) : string :=
  let m := decimal n in
  match f with
  | O => m
  | _ =>
      let k := String.length m in
      let m := if Nat.leb k f then zeros (f + 1 - k) ++ m else m in
      let k := String.length m in
      let (a, b) := split_at (k - f) m in
      a ++ "." ++ b
  end.

Section ToFixed.

(** [Number::toString] is only reached by [toFixed] for magnitudes of at
    least [10^21]; its shortest-digits search is left to the engine. *)
Variable Number_toString : number -> string.

Definition toFixed (x : number) (fractionDigits : nat) : string :=
  match x with
  | S754_nan => "NaN"
  | S754_infinity false => "Infinity"
  | S754_infinity true => "-Infinity"
  | S754_zero _ => fixed_digits 0 fractionDigits
  | S754_finite s m e =>
      (if s then "-" else "") ++
      (if ge_1e21 m e
       then Number_toString (S754_finite false m e)
       else fixed_digits (nearest_scaled m e fractionDigits) fractionDigits)
  end.

End ToFixed.

End Number.

Import Number.

(** ** Payloads of the two endpoints *)

(** [[string, number, number]] *)
Definition TimeSeriesPoint : Type := string * number * number.

Module L2Beat.
Record Daily := { data : list TimeSeriesPoint }.
Record L2DataResponseItem := { daily : Daily }.
Record L2DataResponse := {
  layers2s : L2DataResponseItem;
  combined : L2DataResponseItem;
  bridges : L2DataResponseItem
}.
End L2Beat.

Module CryptoStats.
Record Results := { feeTransferEth : number }.
Record FeeEntry := { id : string; results : Results }.
Record FeeDataResponse := { data : list FeeEntry }.
End CryptoStats.

(** ** Errors, promises and effects *)

Record JsError := { name : string; message : string }.

(** What the engine throws on [undefined[1]]. *)
Definition TypeError_undefined : JsError :=
  {| name := "TypeError";
     message := "Cannot read properties of undefined (reading '1')" |}.

(** The settled state of the promise returned by [getData]. *)
Inductive Settled (A : Type) : Type :=
| Fulfilled (value : A)
| Rejected (reason : JsError).
Arguments Fulfilled {A} value.
Arguments Rejected {A} reason.

(** What a derivation does to the outside: calls of the three state setters,
    calls of [console.error], and the indexed reads of [dailyData] (the length
    of the array, then the index). *)
Inductive Effect : Type :=
| SetTVL (v : string)
| SetL2PercentChange (v : string)
| SetAverageFee (v : string)
| ConsoleError (e : JsError)
| ArrayGet (len : nat) (index : Z).

Inductive Completion (A : Type) : Type :=
| Normal (a : A)
| Throw (e : JsError).
Arguments Normal {A} a.
Arguments Throw {A} e.

(** A computation: the effects performed so far and how it completed. *)
Definition Js (A : Type) : Type := list Effect * Completion A.

Definition ret {A} (a : A) : Js A := ([], Normal a).
Definition throw {A} (e : JsError) : Js A := ([], Throw e).
Definition perform (ef : Effect) : Js unit := ([ef], Normal tt).

Definition bind {A B} (m : Js A) (k : A -> Js B) : Js B :=
  match m with
  | (t, Normal a) => let (t', r) := k a in ((t ++ t')%list, r)
  | (t, Throw e) => (t, Throw e)
  end.

Definition try_catch {A} (body : Js A) (handler : JsError -> Js A) : Js A :=
  match body with
  | (t, Normal a) => (t, Normal a)
  | (t, Throw e) => let (t', r) := handler e in ((t ++ t')%list, r)
  end.

Notation "x <- m ;; k" := (bind m (fun x => k))
  (at level 61, m at next level, right associativity).
Notation "m ;;; k" := (bind m (fun _ => k))
  (at level 61, right associativity).

Definition await {A} (p : Settled A) : Js A :=
  match p with
  | Fulfilled v => ret v
  | Rejected e => throw e
  end.

(** [a[i]]: [undefined] outside [0 .. a.length - 1]. *)
Definition get {A} (a : list A) (i : Z) : Js (option A) :=
  perform (ArrayGet (List.length a) i) ;;;
  ret (if (i <? 0)%Z then None else nth_error a (Z.to_nat i)).

(** [p[1]]: a TypeError when [p] is [undefined]. *)
Definition item1 (p : option TimeSeriesPoint) : Js number :=
  match p with
  | Some (_, v, _) => ret v
  | None => throw TypeError_undefined
  end.

Definition setTVL (v : string) : Js unit := perform (SetTVL v).
Definition setL2PercentChange (v : string) : Js unit :=
  perform (SetL2PercentChange v).
Definition setAverageFee (v : string) : Js unit := perform (SetAverageFee v).
Definition console_error (e : JsError) : Js unit := perform (ConsoleError e).

Definition trace {A} (m : Js A) : list Effect := fst m.
Definition completion {A} (m : Js A) : Completion A := snd m.

(** ** The three [useState] cells *)

Record Stats := {
  tvl : string;
  percentChangeL2 : string;
  averageFee : string
}.

Definition loading : string := "loading...".
Definition error_text : string := "Error, please refresh.".

Definition initial_stats : Stats :=
  {| tvl := loading; percentChangeL2 := loading; averageFee := loading |}.

Definition apply_effect (s : Stats) (ef : Effect) : Stats :=
  match ef with
  | SetTVL v =>
      {| tvl := v; percentChangeL2 := percentChangeL2 s;
         averageFee := averageFee s |}
  | SetL2PercentChange v =>
      {| tvl := tvl s; percentChangeL2 := v; averageFee := averageFee s |}
  | SetAverageFee v =>
      {| tvl := tvl s; percentChangeL2 := percentChangeL2 s;
         averageFee := v |}
  | ConsoleError _ | ArrayGet _ _ => s
  end.

Definition apply_effects (s : Stats) (t : list Effect) : Stats :=
  fold_left apply_effect t s.

(** The arguments of the [console.error] calls, oldest first. *)
Fixpoint logged (t : list Effect) : list JsError :=
  match t with
  | [] => []
  | ConsoleError e :: t' => e :: logged t'
  | _ :: t' => logged t'
  end.

Definition out_of_range (ef : Effect) : bool :=
  match ef with
  | ArrayGet len i => ((i <? 0) || (Z.of_nat len <=? i))%Z
  | _ => false
  end.

Inductive Cell := TVL | L2PercentChange | AverageFee.

Definition writes_to (c : Cell) (ef : Effect) : option string :=
  match c, ef with
  | TVL, SetTVL v => Some v
  | L2PercentChange, SetL2PercentChange v => Some v
  | AverageFee, SetAverageFee v => Some v
  | _, _ => None
  end.

(** The values a cell is set to, in order. *)
Fixpoint writes (c : Cell) (t : list Effect) : list string :=
  match t with
  | [] => []
  | ef :: t' =>
      match writes_to c ef with
      | Some v => v :: writes c t'
      | None => writes c t'
      end
  end.

Definition read_cell (c : Cell) (s : Stats) : string :=
  match c with
  | TVL => tvl s
  | L2PercentChange => percentChangeL2 s
  | AverageFee => averageFee s
  end.

(** ** Intl.NumberFormat *)

Record NumberFormatOptions := {
  style : string;
  currency : string;
  notation : string;
  minimumSignificantDigits : nat;
  maximumSignificantDigits : nat
}.

Definition compact_usd : NumberFormatOptions :=
  {| style := "currency";
     currency := "USD";
     notation := "compact";
     minimumSignificantDigits := 2;
     maximumSignificantDigits := 3 |}.

(** ** The derivations *)

Section Derivations.

Variable Number_toString : number -> string.

(** [new Intl.NumberFormat(locale, options).format(x)]: locale data is the
    engine's. *)
Variable NumberFormat_format :
  string -> NumberFormatOptions -> number -> string.

(** From [utils/translations]. *)
Variable getLocaleForNumberFormat : string -> string.

Definition percent_change (last prior : number) : number :=
  mul (div (sub last prior) prior) (of_Z 100).

Definition render_percent (percentage : number) : string :=
  if gtb percentage zero
  then "+" ++ toFixed Number_toString percentage 2 ++ "%"
  else toFixed Number_toString percentage 2 ++ "%".

Definition fetchL2Beat_try (localeForStatsBoxNumbers : string)
    (response : Settled L2Beat.L2DataResponse) : Js unit :=
  l2BeatData <- await response ;;
  let dailyData := L2Beat.data (L2Beat.daily (L2Beat.layers2s l2BeatData)) in
  let len := Z.of_nat (List.length dailyData) in
  p <- get dailyData (len - 1) ;;
  v <- item1 p ;;
  let TVL := NumberFormat_format localeForStatsBoxNumbers compact_usd v in
  setTVL TVL ;;;
  p1 <- get dailyData (len - 1) ;;
  v1 <- item1 p1 ;;
  p2 <- get dailyData (len - 31) ;;
  v2 <- item1 p2 ;;
  p3 <- get dailyData (len - 31) ;;
  v3 <- item1 p3 ;;
  let percentage := mul (div (sub v1 v2) v3) (of_Z 100) in
  setL2PercentChange (render_percent percentage).

Definition fetchL2Beat_catch (error : JsError) : Js unit :=
  console_error error ;;;
  setTVL error_text ;;;
  setL2PercentChange error_text.

Definition fetchL2Beat (localeForStatsBoxNumbers : string)
    (response : Settled L2Beat.L2DataResponse) : Js unit :=
  try_catch (fetchL2Beat_try localeForStatsBoxNumbers response)
            fetchL2Beat_catch.

Definition excluded_id : string := "hermez".

Definition feeData_of (entries : list CryptoStats.FeeEntry)
  : list CryptoStats.FeeEntry :=
  filter (fun l2 => negb (String.eqb (CryptoStats.id l2) excluded_id))
         entries.

Definition fee_sum (feeData : list CryptoStats.FeeEntry) : number :=
  fold_left
    (fun acc curr =>
       add acc (CryptoStats.feeTransferEth (CryptoStats.results curr)))
    feeData zero.

Definition feeAverage_of (feeData : list CryptoStats.FeeEntry) : number :=
  div (fee_sum feeData) (of_nat (List.length feeData)).

Definition fetchCryptoStats_try (localeForStatsBoxNumbers : string)
    (response : Settled CryptoStats.FeeDataResponse) : Js unit :=
  feeDataResponse <- await response ;;
  let feeData := feeData_of (CryptoStats.data feeDataResponse) in
  let feeAverage := feeAverage_of feeData in
  let intlFeeAverage :=
    NumberFormat_format localeForStatsBoxNumbers compact_usd feeAverage in
  setAverageFee intlFeeAverage.

Definition fetchCryptoStats_catch (error : JsError) : Js unit :=
  setAverageFee error_text ;;;
  console_error error.

Definition fetchCryptoStats (localeForStatsBoxNumbers : string)
    (response : Settled CryptoStats.FeeDataResponse) : Js unit :=
  try_catch (fetchCryptoStats_try localeForStatsBoxNumbers response)
            fetchCryptoStats_catch.

(** *** The effect: one fetch cycle per mount and per locale change *)

(** A request of [getData] that has not settled yet.  The continuation
    closes over the [localeForStatsBoxNumbers] of the effect run that
    issued it; [cycle] numbers the effect runs. *)
Inductive Pending : Type :=
| PendingL2Beat (cycle : nat) (localeForStatsBoxNumbers : string)
| PendingCryptoStats (cycle : nat) (localeForStatsBoxNumbers : string).

Record Page := {
  stats : Stats;
  console : list JsError;
  cycles : nat;
  pending : list Pending;
  (** every effect performed so far, with the cycle that performed it *)
  history : list (nat * Effect)
}.

Inductive Action : Type :=
| RunEffect (locale : string)
| SettleL2Beat (cycle : nat) (response : Settled L2Beat.L2DataResponse)
| SettleCryptoStats (cycle : nat)
    (response : Settled CryptoStats.FeeDataResponse).

Definition mounted : Page :=
  {| stats := initial_stats; console := []; cycles := 0; pending := [];
     history := [] |}.

Definition is_l2beat (c : nat) (p : Pending) : bool :=
  match p with
  | PendingL2Beat c' _ => Nat.eqb c c'
  | PendingCryptoStats _ _ => false
  end.

Definition is_cryptostats (c : nat) (p : Pending) : bool :=
  match p with
  | PendingCryptoStats c' _ => Nat.eqb c c'
  | PendingL2Beat _ _ => false
  end.

Definition locale_of (p : Pending) : string :=
  match p with
  | PendingL2Beat _ l | PendingCryptoStats _ l => l
  end.

(** The page after a continuation of cycle [c] has run with trace [t]. *)
Definition resume (pg : Page) (c : nat) (rest : list Pending)
    (t : list Effect) : Page :=
  {| stats := apply_effects (stats pg) t;
     console := (console pg ++ logged t)%list;
     cycles := cycles pg;
     pending := rest;
     history := (history pg ++ map (pair c) t)%list |}.

(** One turn of the event loop; [None] when the action is not enabled. *)
Definition step (pg : Page) (a : Action) : option Page :=
  match a with
  | RunEffect locale =>
      let localeForStatsBoxNumbers := getLocaleForNumberFormat locale in
      Some {| stats := stats pg;
              console := console pg;
              cycles := S (cycles pg);
              pending :=
                (pending pg ++
                 [PendingL2Beat (cycles pg) localeForStatsBoxNumbers;
                  PendingCryptoStats (cycles pg) localeForStatsBoxNumbers])%list;
              history := history pg |}
  | SettleL2Beat c response =>
      match find (is_l2beat c) (pending pg) with
      | Some p =>
          Some (resume pg c
                  (filter (fun q => negb (is_l2beat c q)) (pending pg))
                  (trace (fetchL2Beat (locale_of p) response)))
      | None => None
      end
  | SettleCryptoStats c response =>
      match find (is_cryptostats c) (pending pg) with
      | Some p =>
          Some (resume pg c
                  (filter (fun q => negb (is_cryptostats c q)) (pending pg))
                  (trace (fetchCryptoStats (locale_of p) response)))
      | None => None
      end
  end.

Fixpoint run (pg : Page) (acts : list Action) : option Page :=
  match acts with
  | [] => Some pg
  | a :: acts' =>
      match step pg a with
      | Some pg' => run pg' acts'
      | None => None
      end
  end.

(** The cycle that last set cell [c], if any was set. *)
Fixpoint last_writer (c : Cell) (h : list (nat * Effect)) : option nat :=
  match h with
  | [] => None
  | (n, ef) :: h' =>
      match last_writer c h' with
      | Some n' => Some n'
      | None =>
          match writes_to c ef with
          | Some _ => Some n
          | None => None
          end
      end
  end.

End Derivations.

(** ** The two product sections *)

(** An entry of [data/layer-2/layer-2.json]; only [purpose] takes part in
    the filters. *)
Record Layer2 := {
  l2_name : string;
  purpose : list string
}.

(** [Array.prototype.indexOf] on an array of strings. *)
Fixpoint indexOf_from (a : list string) (x : string) (i : Z) : Z :=
  match a with
  | [] => (-1)%Z
  | y :: a' => if String.eqb y x then i else indexOf_from a' x (i + 1)%Z
  end.

Definition indexOf (a : list string) (x : string) : Z := indexOf_from a x 0.

(** ToBoolean of an integer-valued number. *)
Definition truthy (n : Z) : bool := negb (n =? 0)%Z.

Definition is_generalized (l2 : Layer2) : bool :=
  negb (truthy (indexOf (purpose l2) "universal")).

Definition is_application_specific (l2 : Layer2) : bool :=
  truthy (indexOf (purpose l2) "universal").

Definition layer2DataCombined (optimistic zk : list Layer2) : list Layer2 :=
  (optimistic ++ zk)%list.

Definition generalized_cards (combined : list Layer2) : list Layer2 :=
  filter is_generalized combined.

Definition application_specific_cards (combined : list Layer2)
  : list Layer2 :=
  filter is_application_specific combined.

(** ** Recognising a rendered percentage *)

Definition is_digit (c : ascii) : bool :=
  (48 <=? nat_of_ascii c)%nat && (nat_of_ascii c <=? 57)%nat.

Fixpoint all_digits (s : string) : bool :=
  match s with
  | "" => true
  | String c s' => is_digit c && all_digits s'
  end.

Fixpoint drop_digits (s : string) : string :=
  match s with
  | "" => ""
  | String c s' => if is_digit c then drop_digits s' else s
  end.

(** One or more digits, a point, exactly two digits, a percent sign. *)
Definition unsigned_fixed2_percent (s : string) : bool :=
  match s with
  | String c _ =>
      is_digit c &&
      match drop_digits s with
      | String "." (String d1 (String d2 "%")) => is_digit d1 && is_digit d2
      | _ => false
      end
  | "" => false
  end.

(** The same after an optional sign. *)
Definition is_fixed2_percent (s : string) : bool :=
  match s with
  | String "+" r => unsigned_fixed2_percent r
  | String "-" r => unsigned_fixed2_percent r
  | _ => unsigned_fixed2_percent s
  end.

Definition starts_with_plus (s : string) : bool :=
  match s with
  | String "+" _ => true
  | _ => false
  end.

Definition starts_with_minus (s : string) : bool :=
  match s with
  | String "-" _ => true
  | _ => false
  end.

(** ** Sample instances, for closed examples *)

Module Sample.

Definition Number_toString (_ : number) : string := "1e+21".

(** A stand-in formatter that keeps the locale visible. *)
Definition NumberFormat_format (locale : string) (o : NumberFormatOptions)
    (x : number) : string :=
  currency o ++ " " ++ toFixed Number_toString x 2 ++ " (" ++ locale ++ ")".

Definition getLocaleForNumberFormat (locale : string) : string := locale.

Definition point (v : Z) : TimeSeriesPoint := ("2023-01-01", of_Z v, of_Z v).

Definition l2beat (values : list Z) : L2Beat.L2DataResponse :=
  let item :=
    {| L2Beat.daily := {| L2Beat.data := map point values |} |} in
  {| L2Beat.layers2s := item; L2Beat.combined := item;
     L2Beat.bridges := item |}.

Definition fee (i : string) (v : Z) : CryptoStats.FeeEntry :=
  {| CryptoStats.id := i;
     CryptoStats.results := {| CryptoStats.feeTransferEth := of_Z v |} |}.

Definition fetchL2Beat := fetchL2Beat Number_toString NumberFormat_format.
Definition fetchCryptoStats := fetchCryptoStats NumberFormat_format.
Definition step :=
  step Number_toString NumberFormat_format getLocaleForNumberFormat.
Definition run :=
  run Number_toString NumberFormat_format getLocaleForNumberFormat.

(** The page after a mount in "en" and a change of locale to "de", with all
    four requests still in flight. *)
Definition two_cycles_pending : Page :=
  {| stats := initial_stats;
     console := [];
     cycles := 2;
     pending := [PendingL2Beat 0 "en"; PendingCryptoStats 0 "en";
                 PendingL2Beat 1 "de"; PendingCryptoStats 1 "de"];
     history := [] |}.

(** 31 points: 100, then 29 times 7, then 150. *)
Definition rising : L2Beat.L2DataResponse :=
  l2beat (100 :: repeat 7 29 ++ [150])%Z.

Definition flat : L2Beat.L2DataResponse := l2beat (repeat 7%Z 31).

Definition one_point : L2Beat.L2DataResponse := l2beat [5%Z].

Definition only_hermez : CryptoStats.FeeDataResponse :=
  {| CryptoStats.data := [fee "hermez" 100] |}.




Definition three_fees : CryptoStats.FeeDataResponse :=
  {| CryptoStats.data := [fee "a" 1; fee "hermez" 100; fee "b" 3] |}.

(** 31 points: 150, then 29 times 7, then 100. *)
Definition falling : L2Beat.L2DataResponse :=
  l2beat (150 :: repeat 7 29 ++ [100])%Z.

(** 40 points that end like [rising]: other timestamps, other third
    components, other points in between and before, and another [combined]
    and [bridges]. *)
Definition rising_other : L2Beat.L2DataResponse :=
  let series :=
    (repeat ("2022-06-01", of_Z 1, of_Z 2) 9
     ++ ("2022-06-10", of_Z 100, of_Z 0)
     :: repeat ("2022-06-11", of_Z 9, of_Z 9) 29
     ++ [("2022-07-10", of_Z 150, of_Z 1)])%list in
  {| L2Beat.layers2s := {| L2Beat.daily := {| L2Beat.data := series |} |};
     L2Beat.combined := {| L2Beat.daily := {| L2Beat.data := [] |} |};
     L2Beat.bridges := {| L2Beat.daily := {| L2Beat.data := [] |} |} |}.

End Sample.

(** ** How the claims read on a trace *)

Definition dailyData_of (r : L2Beat.L2DataResponse) : list TimeSeriesPoint :=
  L2Beat.data (L2Beat.daily (L2Beat.layers2s r)).

(** [p[1]] of a point that is there. *)
Definition value (p : TimeSeriesPoint) : number := snd (fst p).

(** Some [console.error] call received an error of that name. *)
Definition fails_with (nm : string) (t : list Effect) : bool :=
  existsb (fun e => String.eqb (name e) nm) (logged t).

Definition reads_in_range (t : list Effect) : bool :=
  forallb (fun ef => negb (out_of_range ef)) t.

(** The effects of the [catch] block of [fetchL2Beat]. *)
Definition caught (e : JsError) : list Effect :=
  [ConsoleError e; SetTVL error_text; SetL2PercentChange error_text].

(** The ways the TVL cycle fails, each with the error it is caught with:
    [getData] rejects (the request failed or the body did not parse), or the
    series is too short for the look-back (an empty one included). *)
Inductive l2beat_failure :
  Settled L2Beat.L2DataResponse -> JsError -> Prop :=
| request_rejected (e : JsError) : l2beat_failure (Rejected e) e
| series_too_short (r : L2Beat.L2DataResponse) :
    List.length (dailyData_of r) < 31 ->
    l2beat_failure (Fulfilled r) TypeError_undefined.

(** A series with at least one point and fewer than 31. *)
Definition short_nonempty (response : Settled L2Beat.L2DataResponse) : bool :=
  match response with
  | Fulfilled r =>
      let n := List.length (dailyData_of r) in
      (1 <=? n)%nat && (n <? 31)%nat
  | Rejected _ => false
  end.

(** The effects of one cycle: the two continuations run one after the other,
    in the order in which the two requests settle. *)
Definition fetch_cycle (l2beat_settles_first : bool)
    (t_l2beat t_cryptostats : list Effect) : list Effect :=
  if l2beat_settles_first
  then (t_l2beat ++ t_cryptostats)%list
  else (t_cryptostats ++ t_l2beat)%list.


Definition fee_of (e : CryptoStats.FeeEntry) : number :=
  CryptoStats.feeTransferEth (CryptoStats.results e).








(** * Facts *)

Section Facts.

Variable Number_toString : number -> string.
Variable NumberFormat_format :
  string -> NumberFormatOptions -> number -> string.
Variable getLocaleForNumberFormat : string -> string.

(** The derivations at the section's formatter and [Number::toString]. *)
Local Notation "'l2beat_try'" :=
  (fetchL2Beat_try Number_toString NumberFormat_format).
Local Notation "'l2beat'" :=
  (fetchL2Beat Number_toString NumberFormat_format).
Local Notation "'cryptostats_try'" :=
  (fetchCryptoStats_try NumberFormat_format).
Local Notation "'cryptostats'" :=
  (fetchCryptoStats NumberFormat_format).
Local Notation "'render'" := (render_percent Number_toString).
Local Notation "'format'" := NumberFormat_format.

(** *** Strings of digits *)

Lemma string_length_app (a b : string) :
  String.length (a ++ b) = String.length a + String.length b.
Proof. induction a as [|c a IH]; cbn; [reflexivity | now rewrite IH]. Qed.

Lemma string_app_assoc (a b c : string) : (a ++ b) ++ c = a ++ (b ++ c).
Proof. induction a as [|x a IH]; cbn; [reflexivity | now rewrite IH]. Qed.

Lemma all_digits_app (a b : string) :
  all_digits (a ++ b) = all_digits a && all_digits b.
Proof.
  induction a as [|c a IH]; cbn; [reflexivity|].
  rewrite IH. now rewrite andb_assoc.
Qed.

Lemma all_digits_zeros (k : nat) : all_digits (zeros k) = true.
Proof. induction k; cbn; auto. Qed.

Lemma length_zeros (k : nat) : String.length (zeros k) = k.
Proof. induction k; cbn; auto. Qed.

Lemma all_digits_uint (u : Decimal.uint) :
  all_digits (NilEmpty.string_of_uint u) = true.
Proof. induction u; cbn; auto. Qed.

Lemma all_digits_decimal (n : Z) : all_digits (decimal n) = true.
Proof.
  unfold decimal, NilZero.string_of_uint.
  destruct (N.to_uint (Z.to_N n)) eqn:E; try reflexivity;
    rewrite <- E at 1; apply all_digits_uint.
Qed.

Lemma length_decimal (n : Z) : 1 <= String.length (decimal n).
Proof.
  unfold decimal, NilZero.string_of_uint.
  destruct (N.to_uint (Z.to_N n)); cbn; lia.
Qed.

Lemma split_at_spec (k : nat) (s : string) :
  k <= String.length s ->
  let (a, b) := split_at k s in
  s = a ++ b /\ String.length a = k.
Proof.
  revert s. induction k as [|k IH]; intros s H.
  - destruct s; cbn; auto.
  - destruct s as [|c s]; cbn in H; [lia|].
    cbn. specialize (IH s ltac:(lia)).
    destruct (split_at k s) as [a b]. destruct IH as [-> <-]. cbn. auto.
Qed.

Lemma drop_digits_point (a r : string) :
  all_digits a = true ->
  drop_digits (a ++ String "." r) = String "." r.
Proof.
  induction a as [|c a IH]; cbn; [reflexivity|].
  intros H. apply andb_true_iff in H as [Hc Ha].
  rewrite Hc. auto.
Qed.

(** The digits [toFixed] prints for two fraction digits have the shape
    [d+ . d d]. *)
Lemma fixed_digits_two (n : Z) :
  unsigned_fixed2_percent (fixed_digits n 2 ++ "%") = true.
Proof.
  unfold fixed_digits. cbv zeta.
  set (m := decimal n).
  assert (Hd : all_digits m = true) by apply all_digits_decimal.
  assert (Hl : 1 <= String.length m) by apply length_decimal.
  match goal with |- context [split_at _ ?x] => set (m' := x) end.
  assert (Hd' : all_digits m' = true).
  { unfold m'. destruct (String.length m <=? 2)%nat; [|exact Hd].
    now rewrite all_digits_app, all_digits_zeros. }
  assert (Hl' : 3 <= String.length m').
  { unfold m'. destruct (String.length m <=? 2)%nat eqn:E.
    - apply Nat.leb_le in E.
      rewrite string_length_app, length_zeros. lia.
    - apply Nat.leb_gt in E. lia. }
  pose proof (split_at_spec (String.length m' - 2) m' ltac:(lia)) as Hs.
  destruct (split_at (String.length m' - 2) m') as [a b].
  destruct Hs as [Hm Ha].
  assert (Hb : String.length b = 2).
  { rewrite Hm, string_length_app in Hl', Ha. lia. }
  rewrite Hm, all_digits_app in Hd'. apply andb_true_iff in Hd' as [Da Db].
  destruct a as [|c a]; [cbn in Ha; rewrite Hm in Hl'; cbn in Hl'; lia|].
  destruct b as [|d1 [|d2 [|d3 b]]]; cbn in Hb; try lia.
  cbn in Da, Db.
  apply andb_true_iff in Da as [Dc Da].
  apply andb_true_iff in Db as [D1 D2]. rewrite andb_true_r in D2.
  rewrite string_app_assoc.
  change (String c a ++ ("." ++ String d1 (String d2 "")) ++ "%")
    with (String c (a ++ String "." (String d1 (String d2 "%")))).
  unfold unsigned_fixed2_percent. rewrite Dc.
  change (drop_digits (String c (a ++ String "." (String d1 (String d2 "%")))))
    with (if is_digit c
          then drop_digits (a ++ String "." (String d1 (String d2 "%")))
          else String c (a ++ String "." (String d1 (String d2 "%")))).
  rewrite Dc, drop_digits_point by exact Da.
  now rewrite D1, D2.
Qed.

(** *** Array reads *)

Lemma get_in_range {A} (a : list A) (i : nat) (x : A) :
  nth_error a i = Some x ->
  get a (Z.of_nat i) = ([ArrayGet (List.length a) (Z.of_nat i)], Normal (Some x)).
Proof.
  intros H. unfold get, perform, bind, ret. cbn.
  destruct (Z.of_nat i <? 0)%Z eqn:E; [apply Z.ltb_lt in E; lia|].
  now rewrite Nat2Z.id, H.
Qed.

Lemma get_negative {A} (a : list A) (i : Z) :
  (i < 0)%Z ->
  get a i = ([ArrayGet (List.length a) i], Normal None).
Proof.
  intros H. unfold get, perform, bind, ret. cbn.
  apply Z.ltb_lt in H. now rewrite H.
Qed.

Lemma long_series_points (d : list TimeSeriesPoint) :
  31 <= List.length d ->
  exists p_last p_prior,
    nth_error d (List.length d - 1) = Some p_last /\
    nth_error d (List.length d - 31) = Some p_prior.
Proof.
  intros H.
  destruct (nth_error d (List.length d - 1)) as [pl|] eqn:E1.
  2:{ apply nth_error_None in E1. lia. }
  destruct (nth_error d (List.length d - 31)) as [pp|] eqn:E2.
  2:{ apply nth_error_None in E2. lia. }
  now exists pl, pp.
Qed.

(** *** The four ways through the [try] block of [fetchL2Beat] *)

Lemma try_rejected locale e :
  l2beat_try locale (Rejected e) = ([], Throw e).
Proof. reflexivity. Qed.

Lemma try_empty locale r :
  dailyData_of r = [] ->
  l2beat_try locale (Fulfilled r)
  = ([ArrayGet 0 (-1)], Throw TypeError_undefined).
Proof.
  unfold dailyData_of. intros H. unfold fetchL2Beat_try.
  cbn [await bind ret]. rewrite H. reflexivity.
Qed.

Lemma try_short locale r p_last :
  let d := dailyData_of r in
  let n := List.length d in
  n < 31 ->
  nth_error d (n - 1) = Some p_last ->
  l2beat_try locale (Fulfilled r)
  = ([ArrayGet n (Z.of_nat n - 1);
      SetTVL (format locale compact_usd (value p_last));
      ArrayGet n (Z.of_nat n - 1);
      ArrayGet n (Z.of_nat n - 31)],
     Throw TypeError_undefined).
Proof.
  intros d n Hn Hl.
  assert (Hpos : 1 <= n).
  { destruct (Nat.eq_dec n 0) as [E|]; [|lia].
    rewrite E in Hl. cbn in Hl. unfold n in E.
    destruct d; [discriminate Hl | discriminate E]. }
  unfold fetchL2Beat_try. cbn [await bind ret].
  fold (dailyData_of r). fold d. fold n.
  replace (Z.of_nat n - 1)%Z with (Z.of_nat (n - 1)) by lia.
  rewrite (get_in_range d (n - 1) p_last Hl).
  rewrite (get_negative d (Z.of_nat n - 31)) by lia.
  destruct p_last as [[ts v] w]. reflexivity.
Qed.

Lemma try_long locale r p_last p_prior :
  let d := dailyData_of r in
  let n := List.length d in
  31 <= n ->
  nth_error d (n - 1) = Some p_last ->
  nth_error d (n - 31) = Some p_prior ->
  l2beat_try locale (Fulfilled r)
  = ([ArrayGet n (Z.of_nat n - 1);
      SetTVL (format locale compact_usd (value p_last));
      ArrayGet n (Z.of_nat n - 1);
      ArrayGet n (Z.of_nat n - 31);
      ArrayGet n (Z.of_nat n - 31);
      SetL2PercentChange
        (render (percent_change (value p_last) (value p_prior)))],
     Normal tt).
Proof.
  intros d n Hn Hl Hp.
  unfold fetchL2Beat_try. cbn [await bind ret].
  fold (dailyData_of r). fold d. fold n.
  replace (Z.of_nat n - 1)%Z with (Z.of_nat (n - 1)) by lia.
  replace (Z.of_nat n - 31)%Z with (Z.of_nat (n - 31)) by lia.
  rewrite (get_in_range d (n - 1) p_last Hl).
  rewrite (get_in_range d (n - 31) p_prior Hp).
  destruct p_last as [[ts v] w]. destruct p_prior as [[ts' v'] w'].
  reflexivity.
Qed.

(** *** What [fetchL2Beat] does, case by case *)

Lemma l2beat_rejected locale e :
  l2beat locale (Rejected e) = (caught e, Normal tt).
Proof. reflexivity. Qed.

Lemma l2beat_empty locale r :
  dailyData_of r = [] ->
  l2beat locale (Fulfilled r)
  = (ArrayGet 0 (-1) :: caught TypeError_undefined, Normal tt).
Proof.
  intros H. unfold fetchL2Beat. now rewrite (try_empty locale r H).
Qed.

Lemma l2beat_short locale r p_last :
  let d := dailyData_of r in
  let n := List.length d in
  n < 31 ->
  nth_error d (n - 1) = Some p_last ->
  l2beat locale (Fulfilled r)
  = ([ArrayGet n (Z.of_nat n - 1);
      SetTVL (format locale compact_usd (value p_last));
      ArrayGet n (Z.of_nat n - 1);
      ArrayGet n (Z.of_nat n - 31)] ++ caught TypeError_undefined,
     Normal tt)%list.
Proof.
  intros d n Hn Hl. unfold fetchL2Beat.
  now rewrite (try_short locale r p_last Hn Hl).
Qed.

Lemma l2beat_long locale r p_last p_prior :
  let d := dailyData_of r in
  let n := List.length d in
  31 <= n ->
  nth_error d (n - 1) = Some p_last ->
  nth_error d (n - 31) = Some p_prior ->
  l2beat locale (Fulfilled r)
  = ([ArrayGet n (Z.of_nat n - 1);
      SetTVL (format locale compact_usd (value p_last));
      ArrayGet n (Z.of_nat n - 1);
      ArrayGet n (Z.of_nat n - 31);
      ArrayGet n (Z.of_nat n - 31);
      SetL2PercentChange
        (render (percent_change (value p_last) (value p_prior)))],
     Normal tt).
Proof.
  intros d n Hn Hl Hp. unfold fetchL2Beat.
  now rewrite (try_long locale r p_last p_prior Hn Hl Hp).
Qed.

(** A series is empty, or short with a last point, or long enough for the
    look-back. *)
Lemma series_cases (d : list TimeSeriesPoint) :
  d = [] \/
  (exists p, 1 <= List.length d < 31 /\
             nth_error d (List.length d - 1) = Some p) \/
  (exists p q, 31 <= List.length d /\
               nth_error d (List.length d - 1) = Some p /\
               nth_error d (List.length d - 31) = Some q).
Proof.
  destruct d as [|x d]; [now left | right].
  destruct (Nat.lt_ge_cases (List.length (x :: d)) 31) as [H|H].
  - left.
    destruct (nth_error (x :: d) (List.length (x :: d) - 1)) as [p|] eqn:E.
    + exists p. cbn in *. split; [lia | reflexivity].
    + apply nth_error_None in E. cbn in E. lia.
  - right. destruct (long_series_points (x :: d) H) as (p & q & Hp & Hq).
    now exists p, q.
Qed.

(** *** Cells and traces *)

Lemma writes_app (c : Cell) (t1 t2 : list Effect) :
  writes c (t1 ++ t2) = (writes c t1 ++ writes c t2)%list.
Proof.
  induction t1 as [|ef t1 IH]; cbn; [reflexivity|].
  destruct (writes_to c ef); cbn; now rewrite IH.
Qed.

Lemma apply_effect_cell (c : Cell) (s : Stats) (ef : Effect) :
  read_cell c (apply_effect s ef)
  = match writes_to c ef with Some v => v | None => read_cell c s end.
Proof. destruct c, ef; reflexivity. Qed.

Lemma last_cons_default (l : list string) (x d1 d2 : string) :
  last (x :: l) d1 = last (x :: l) d2.
Proof.
  revert x. induction l as [|y l IH]; intros x; [reflexivity|].
  change (last (y :: l) d1 = last (y :: l) d2). apply IH.
Qed.

(** A cell holds the last value it was set to, or what it held before. *)
Lemma apply_effects_last (c : Cell) (t : list Effect) (s : Stats) :
  read_cell c (apply_effects s t) = last (writes c t) (read_cell c s).
Proof.
  unfold apply_effects. revert s.
  induction t as [|ef t IH]; intros s; [reflexivity|].
  cbn [fold_left writes]. rewrite IH, apply_effect_cell.
  destruct (writes_to c ef) as [v|]; [|reflexivity].
  destruct (writes c t) as [|w ws]; [reflexivity|].
  change (last (w :: ws) v = last (w :: ws) (read_cell c s)).
  apply last_cons_default.
Qed.

Lemma last_writer_app (c : Cell) (h1 h2 : list (nat * Effect)) :
  last_writer c (h1 ++ h2)
  = match last_writer c h2 with
    | Some n => Some n
    | None => last_writer c h1
    end.
Proof.
  induction h1 as [|[n ef] h1 IH]; cbn.
  - now destruct (last_writer c h2).
  - rewrite IH. now destruct (last_writer c h2).
Qed.

Lemma last_writer_tagged (c : Cell) (n : nat) (t : list Effect) :
  last_writer c (map (pair n) t)
  = match writes c t with [] => None | _ => Some n end.
Proof.
  induction t as [|ef t IH]; cbn; [reflexivity|].
  rewrite IH. destruct (writes c t), (writes_to c ef); reflexivity.
Qed.

(** *** indexOf *)

Lemma indexOf_from_range (a : list string) (x : string) (i : Z) :
  indexOf_from a x i = (-1)%Z \/ (i <= indexOf_from a x i)%Z.
Proof.
  revert i. induction a as [|y a IH]; intros i; cbn; [now left|].
  destruct (String.eqb y x); [right; lia|].
  destruct (IH (i + 1)%Z); [now left | right; lia].
Qed.

Lemma out_of_range_read (t : list Effect) (ef : Effect) :
  In ef t -> out_of_range ef = true -> reads_in_range t = false.
Proof.
  intros Hin Ho. unfold reads_in_range.
  destruct (forallb (fun ef => negb (out_of_range ef)) t) eqn:E; [|reflexivity].
  rewrite forallb_forall in E. specialize (E ef Hin).
  now rewrite Ho in E.
Qed.

(** Every way through [fetchL2Beat] on a series, and on a response. *)
Ltac l2beat_series_cases locale r :=
  let p := fresh "p" in
  let q := fresh "q" in
  let Hn := fresh "Hn" in
  let Hp := fresh "Hp" in
  let Hq := fresh "Hq" in
  let He := fresh "He" in
  destruct (series_cases (dailyData_of r))
    as [He | [(p & Hn & Hp) | (p & q & Hn & Hp & Hq)]];
  [ rewrite (l2beat_empty locale r He)
  | rewrite (l2beat_short locale r p (proj2 Hn) Hp)
  | rewrite (l2beat_long locale r p q Hn Hp Hq) ].

Ltac l2beat_cases locale response :=
  let r := fresh "r" in
  let e := fresh "e" in
  destruct response as [r|e];
  [ l2beat_series_cases locale r | rewrite (l2beat_rejected locale e) ].

Lemma cryptostats_fulfilled locale resp :
  cryptostats locale (Fulfilled resp)
  = ([SetAverageFee
        (format locale compact_usd
           (feeAverage_of (feeData_of (CryptoStats.data resp))))],
     Normal tt).
Proof. reflexivity. Qed.

Lemma cryptostats_rejected locale e :
  cryptostats locale (Rejected e)
  = ([SetAverageFee error_text; ConsoleError e], Normal tt).
Proof. reflexivity. Qed.

(** *** Rendering of the percentage *)

Lemma render_plus (pc : number) :
  starts_with_plus (render pc) = gtb pc zero.
Proof.
  unfold render_percent. destruct (gtb pc zero) eqn:E; [reflexivity|].
  destruct pc as [s|s| |s m e]; try reflexivity.
  - destruct s; [reflexivity | discriminate E].
  - destruct s; [reflexivity | discriminate E].
Qed.

Lemma render_two_decimals (pc : number) :
  is_finite pc = true -> below_1e21 pc = true ->
  is_fixed2_percent (render pc) = true.
Proof.
  intros Hf Hb. destruct pc as [s|s| |s m e]; try discriminate Hf.
  - reflexivity.
  - cbn in Hb. apply negb_true_iff in Hb.
    unfold render_percent, toFixed. rewrite Hb.
    destruct s.
    + change (gtb (S754_finite true m e) zero) with false. cbv iota.
      change (("-" ++ fixed_digits (nearest_scaled m e 2) 2) ++ "%")
        with (String "-" (fixed_digits (nearest_scaled m e 2) 2 ++ "%")).
      apply fixed_digits_two.
    + change (gtb (S754_finite false m e) zero) with true. cbv iota.
      change ("+" ++ ("" ++ fixed_digits (nearest_scaled m e 2) 2) ++ "%")
        with (String "+" (fixed_digits (nearest_scaled m e 2) 2 ++ "%")).
      apply fixed_digits_two.
Qed.

(** *** Exceptions stay inside the derivations *)

(** X1.  Whatever the two requests settle to, [fetchL2Beat] and
    [fetchCryptoStats] complete normally: the promise of neither rejects. *)
Theorem derivations_never_throw locale l2 fee :
  completion (l2beat locale l2) = Normal tt /\
  completion (cryptostats locale fee) = Normal tt.
Proof.
  split.
  - l2beat_cases locale l2; reflexivity.
  - destruct fee; reflexivity.
Qed.

(** X2.  On a response that is rejected or fulfilled with a payload of the
    declared type [L2DataResponse], the [try] block of [fetchL2Beat] throws
    exactly on a rejected request, with the rejection's reason, and on a
    series of fewer than 31 points, with the TypeError of [undefined[1]]. *)
Theorem fetchL2Beat_try_throws_iff locale response e :
  completion (l2beat_try locale response) = Throw e <->
  l2beat_failure response e.
Proof.
  split.
  - destruct response as [r|e'].
    + destruct (series_cases (dailyData_of r))
        as [He | [(p & Hn & Hp) | (p & q & Hn & Hp & Hq)]].
      * rewrite (try_empty locale r He). cbn. intros H. injection H as <-.
        constructor. rewrite He. cbn. lia.
      * rewrite (try_short locale r p (proj2 Hn) Hp). cbn.
        intros H. injection H as <-. constructor. lia.
      * rewrite (try_long locale r p q Hn Hp Hq). discriminate.
    + rewrite try_rejected. cbn. intros H. injection H as <-. constructor.
  - intros [e' | r Hlt]; [reflexivity|].
    destruct (series_cases (dailyData_of r))
      as [He | [(p & Hn & Hp) | (p & q & Hn & Hp & Hq)]].
    + now rewrite (try_empty locale r He).
    + now rewrite (try_short locale r p (proj2 Hn) Hp).
    + lia.
Qed.

(** * The claims *)

(** C1, as the code has it.  For every series of fewer than 31 points the
    derivation does read [dailyData] outside its bounds ([dailyData[-1]] on an
    empty series, [dailyData[length - 31]] otherwise), gets [undefined], and
    fails on [undefined[1]] with a TypeError, not with a DataInsufficient
    error.  The TypeError is caught and logged, both cells end on the error
    text, and the call completes normally. *)
Theorem fetchL2Beat_short_series locale r s :
  List.length (dailyData_of r) < 31 ->
  let m := l2beat locale (Fulfilled r) in
  logged (trace m) = [TypeError_undefined] /\
  fails_with "DataInsufficient" (trace m) = false /\
  reads_in_range (trace m) = false /\
  completion m = Normal tt /\
  tvl (apply_effects s (trace m)) = error_text /\
  percentChangeL2 (apply_effects s (trace m)) = error_text.
Proof.
  intros Hlt m. subst m.
  l2beat_series_cases locale r.
  - repeat split; reflexivity.
  - repeat split; try reflexivity.
    apply out_of_range_read
      with (ef := ArrayGet (List.length (dailyData_of r))
                    (Z.of_nat (List.length (dailyData_of r)) - 31)).
    + cbn. auto 6.
    + cbn. apply orb_true_iff. left. apply Z.ltb_lt. lia.
  - lia.
Qed.

(** C2, as the code has it.  When no entry is left after the filter, the
    derivation raises nothing: the average is [0 / 0], which is NaN, and the
    cell is set to whatever the formatter prints for NaN. *)
Theorem fetchCryptoStats_empty_remainder locale resp :
  feeData_of (CryptoStats.data resp) = [] ->
  let m := cryptostats locale (Fulfilled resp) in
  feeAverage_of (feeData_of (CryptoStats.data resp)) = NaN /\
  m = ([SetAverageFee (format locale compact_usd NaN)], Normal tt) /\
  logged (trace m) = [].
Proof.
  intros H m. subst m. rewrite cryptostats_fulfilled, H.
  repeat split; reflexivity.
Qed.

(** C3, as the code has it.  The effect keeps no generation counter and
    cancels nothing: whenever a request settles, of whatever cycle, its
    continuation runs and sets its cells, which then hold exactly what that
    request's locale and response produce, and the cycle of the request is
    the last writer of those cells. *)
Theorem settled_request_writes pg a pg' :
  step Number_toString NumberFormat_format getLocaleForNumberFormat pg a
  = Some pg' ->
  match a with
  | RunEffect _ => stats pg' = stats pg
  | SettleL2Beat c response =>
      exists locale,
        In (PendingL2Beat c locale) (pending pg) /\
        let t := trace (l2beat locale response) in
        stats pg' = apply_effects (stats pg) t /\
        tvl (stats pg') = tvl (apply_effects initial_stats t) /\
        percentChangeL2 (stats pg')
        = percentChangeL2 (apply_effects initial_stats t) /\
        last_writer TVL (history pg') = Some c /\
        last_writer L2PercentChange (history pg') = Some c
  | SettleCryptoStats c response =>
      exists locale,
        In (PendingCryptoStats c locale) (pending pg) /\
        let t := trace (cryptostats locale response) in
        stats pg' = apply_effects (stats pg) t /\
        averageFee (stats pg') = averageFee (apply_effects initial_stats t) /\
        last_writer AverageFee (history pg') = Some c
  end.
Proof.
  destruct a as [locale | c response | c response]; cbn [step].
  - intros H. injection H as <-. reflexivity.
  - destruct (find (is_l2beat c) (pending pg)) as [p|] eqn:F; [|discriminate].
    intros H. injection H as <-.
    apply find_some in F as [Hin Hp].
    destruct p as [c' locale | c' locale]; [|discriminate Hp].
    cbn in Hp. apply Nat.eqb_eq in Hp. subst c'.
    exists locale. split; [exact Hin|]. cbn [locale_of resume stats history].
    split; [reflexivity|].
    change (tvl ?x) with (read_cell TVL x).
    change (percentChangeL2 ?x) with (read_cell L2PercentChange x).
    rewrite !apply_effects_last, !last_writer_app, !last_writer_tagged.
    l2beat_cases locale response; repeat split; reflexivity.
  - destruct (find (is_cryptostats c) (pending pg)) as [p|] eqn:F;
      [|discriminate].
    intros H. injection H as <-.
    apply find_some in F as [Hin Hp].
    destruct p as [c' locale | c' locale]; [discriminate Hp|].
    cbn in Hp. apply Nat.eqb_eq in Hp. subst c'.
    exists locale. split; [exact Hin|]. cbn [locale_of resume stats history].
    split; [reflexivity|].
    change (averageFee ?x) with (read_cell AverageFee x).
    rewrite !apply_effects_last, !last_writer_app, !last_writer_tagged.
    destruct response; split; reflexivity.
Qed.

(** C4, as the code has it.  For every series of at least 31 points the
    percentage cell is set to the rendering of
    [(v_last - v_prior) / v_prior * 100] computed in binary64: [toFixed(2)]
    of it, a ["%"] after, and a ["+"] before exactly when it is greater than
    zero.  The rendering has exactly two decimals whenever the percentage is
    finite and below [10^21] in magnitude; otherwise [toFixed] prints
    ["NaN"], ["Infinity"] or the exponent form. *)
Theorem percent_change_rendering locale r p_last p_prior s :
  let d := dailyData_of r in
  let n := List.length d in
  31 <= n ->
  nth_error d (n - 1) = Some p_last ->
  nth_error d (n - 31) = Some p_prior ->
  let v_last := value p_last in
  let v_prior := value p_prior in
  let percentage := mul (div (sub v_last v_prior) v_prior) (of_Z 100) in
  let out :=
    percentChangeL2
      (apply_effects s (trace (l2beat locale (Fulfilled r)))) in
  out = (if gtb percentage zero then "+" else "")
        ++ toFixed Number_toString percentage 2 ++ "%" /\
  starts_with_plus out = gtb percentage zero /\
  (is_finite percentage = true -> below_1e21 percentage = true ->
   is_fixed2_percent out = true).
Proof.
  intros d n Hn Hl Hp v_last v_prior percentage out.
  assert (E : out = render percentage).
  { subst out. now rewrite (l2beat_long locale r p_last p_prior Hn Hl Hp). }
  rewrite E. split; [|split].
  - unfold render_percent. now destruct (gtb percentage zero).
  - apply render_plus.
  - apply render_two_decimals.
Qed.

(** C5.  Whenever the TVL cycle fails (the request is rejected, for a
    network or a parse error, or the series is empty or shorter than 31
    points), the cause is passed to [console.error], both the TVL cell and the
    percentage cell end on the fixed error text, and [fetchL2Beat] completes
    normally: nothing is thrown to its caller. *)
Theorem fetchL2Beat_failure_handled locale response cause s :
  l2beat_failure response cause ->
  let m := l2beat locale response in
  completion m = Normal tt /\
  logged (trace m) = [cause] /\
  tvl (apply_effects s (trace m)) = error_text /\
  percentChangeL2 (apply_effects s (trace m)) = error_text.
Proof.
  intros H m. subst m. destruct H as [e | r Hlt].
  - rewrite l2beat_rejected. repeat split; reflexivity.
  - l2beat_series_cases locale r; [| |lia]; repeat split; reflexivity.
Qed.

Ltac one_write :=
  eexists; split;
  [ reflexivity
  | first [ left; reflexivity | right; eexists; reflexivity ] ].

Ltac written_once :=
  split; [ one_write
         | split; [ one_write
                  | first [ one_write | eexists; reflexivity ] ] ].

(** C6, as the code has it.  On mount the three cells hold the loading
    placeholder.  In a fetch cycle, in whichever order the two requests
    settle, [percentChangeL2] and [averageFee] are each set exactly once, to a
    formatted string or to the error text.  [tvl] is set exactly once too,
    except on a series of 1 to 30 points, where it is set twice: to the
    formatted value, then to the error text. *)
Theorem cycle_writes_per_cell locale l2 fee (l2beat_settles_first : bool) :
  let t :=
    fetch_cycle l2beat_settles_first
      (trace (l2beat locale l2)) (trace (cryptostats locale fee)) in
  (forall c, read_cell c initial_stats = loading) /\
  (exists v, writes L2PercentChange t = [v] /\
             (v = error_text \/ exists x, v = render x)) /\
  (exists v, writes AverageFee t = [v] /\
             (v = error_text \/ exists x, v = format locale compact_usd x)) /\
  (if short_nonempty l2
   then exists x, writes TVL t = [format locale compact_usd x; error_text]
   else exists v, writes TVL t = [v] /\
                  (v = error_text \/
                   exists x, v = format locale compact_usd x)).
Proof.
  intros t. split; [now intros []|].
  assert (Hfee : forall c,
            writes c (trace (cryptostats locale fee))
            = match c, fee with
              | AverageFee, Fulfilled resp =>
                  [format locale compact_usd
                     (feeAverage_of (feeData_of (CryptoStats.data resp)))]
              | AverageFee, Rejected _ => [error_text]
              | _, _ => []
              end).
  { intros c. destruct fee, c; reflexivity. }
  assert (Ht : forall c,
            writes c t
            = (if l2beat_settles_first
               then writes c (trace (l2beat locale l2))
                    ++ writes c (trace (cryptostats locale fee))
               else writes c (trace (cryptostats locale fee))
                    ++ writes c (trace (l2beat locale l2)))%list).
  { intros c. subst t. unfold fetch_cycle.
    destruct l2beat_settles_first; apply writes_app. }
  rewrite !Ht, !Hfee. clear Ht Hfee t.
  assert (Hsn : forall r,
            short_nonempty (Fulfilled r)
            = ((1 <=? List.length (dailyData_of r))%nat
               && (List.length (dailyData_of r) <? 31)%nat))
    by reflexivity.
  l2beat_cases locale l2; cbn [trace fst writes writes_to caught app];
    try rewrite Hsn.
  - rewrite He. cbn [List.length Nat.leb andb].
    destruct l2beat_settles_first, fee; cbn [app]; written_once.
  - replace (1 <=? List.length (dailyData_of r))%nat with true
      by (symmetry; apply Nat.leb_le; lia).
    replace (List.length (dailyData_of r) <? 31)%nat with true
      by (symmetry; apply Nat.ltb_lt; lia).
    cbn [andb].
    destruct l2beat_settles_first, fee; cbn [app]; written_once.
  - replace (List.length (dailyData_of r) <? 31)%nat with false
      by (symmetry; apply Nat.ltb_ge; lia).
    rewrite andb_false_r.
    destruct l2beat_settles_first, fee; cbn [app]; written_once.
  - cbn [short_nonempty].
    destruct l2beat_settles_first, fee; cbn [app]; written_once.
Qed.

(** C8, as the code has it.  For every non-empty series the TVL cell is first
    set to index 1 of the last point, formatted as compact USD currency with
    2 to 3 significant digits in the cycle's locale.  With at least 31 points
    that is the only write and the final value; with fewer, the failing
    look-back replaces it by the error text. *)
Theorem tvl_output_by_length locale r p_last s :
  let d := dailyData_of r in
  let n := List.length d in
  nth_error d (n - 1) = Some p_last ->
  let t := trace (l2beat locale (Fulfilled r)) in
  let formatted := format locale compact_usd (value p_last) in
  (31 <= n ->
   writes TVL t = [formatted] /\ tvl (apply_effects s t) = formatted) /\
  (n < 31 ->
   writes TVL t = [formatted; error_text] /\
   tvl (apply_effects s t) = error_text) /\
  style compact_usd = "currency" /\
  currency compact_usd = "USD" /\
  notation compact_usd = "compact" /\
  minimumSignificantDigits compact_usd = 2 /\
  maximumSignificantDigits compact_usd = 3.
Proof.
  intros d n Hl t formatted.
  split; [|split; [|repeat split; reflexivity]].
  - intros Hn.
    destruct (long_series_points d Hn) as (p & q & Hp & Hq).
    fold n in Hp, Hq. rewrite Hl in Hp. injection Hp as <-.
    subst t. rewrite (l2beat_long locale r p_last q Hn Hl Hq).
    split; reflexivity.
  - intros Hn. subst t. rewrite (l2beat_short locale r p_last Hn Hl).
    split; reflexivity.
Qed.

(** C9.  Whatever the response, [fetchCryptoStats] sets neither [tvl] nor
    [percentChangeL2] and leaves both as they were, and [fetchL2Beat] does not
    set [averageFee] and leaves it as it was. *)
Theorem derivations_frame locale l2 fee s :
  let t_fee := trace (cryptostats locale fee) in
  let t_l2 := trace (l2beat locale l2) in
  writes TVL t_fee = [] /\
  writes L2PercentChange t_fee = [] /\
  writes AverageFee t_l2 = [] /\
  tvl (apply_effects s t_fee) = tvl s /\
  percentChangeL2 (apply_effects s t_fee) = percentChangeL2 s /\
  averageFee (apply_effects s t_l2) = averageFee s.
Proof.
  intros t_fee t_l2.
  assert (H1 : writes TVL t_fee = []) by (subst t_fee; now destruct fee).
  assert (H2 : writes L2PercentChange t_fee = [])
    by (subst t_fee; now destruct fee).
  assert (H3 : writes AverageFee t_l2 = [])
    by (subst t_l2; l2beat_cases locale l2; reflexivity).
  repeat split; try assumption.
  - change (read_cell TVL (apply_effects s t_fee) = read_cell TVL s).
    now rewrite apply_effects_last, H1.
  - change (read_cell L2PercentChange (apply_effects s t_fee)
            = read_cell L2PercentChange s).
    now rewrite apply_effects_last, H2.
  - change (read_cell AverageFee (apply_effects s t_l2)
            = read_cell AverageFee s).
    now rewrite apply_effects_last, H3.
Qed.

(** C10.  The two filters are complementary, so the two sections split
    [layer2DataCombined]: together they hold its entries, each once, and an
    entry is in the first section exactly when ["universal"] is the first
    element of its purpose list; holding it further down is not enough. *)
Theorem product_sections_partition (optimistic zk : list Layer2) :
  let combined := layer2DataCombined optimistic zk in
  (forall l2, is_application_specific l2 = negb (is_generalized l2)) /\
  Permutation
    (generalized_cards combined ++ application_specific_cards combined)
    combined /\
  (forall l2, In l2 (generalized_cards combined) <->
              In l2 combined /\ is_application_specific l2 = false) /\
  (forall l2, In l2 (application_specific_cards combined) <->
              In l2 combined /\ is_generalized l2 = false) /\
  (forall l2, is_generalized l2 = true <->
              exists rest, purpose l2 = "universal" :: rest) /\
  is_generalized
    {| l2_name := "example"; purpose := ["payments"; "universal"] |}
  = false.
Proof.
  intros combined.
  assert (Hc : forall l2,
            is_application_specific l2 = negb (is_generalized l2)).
  { intros l2. unfold is_application_specific, is_generalized.
    now rewrite negb_involutive. }
  split; [exact Hc|]. split; [|split; [|split; [|split]]].
  - unfold generalized_cards, application_specific_cards.
    induction combined as [|x l IH]; cbn; [constructor|].
    rewrite Hc. destruct (is_generalized x); cbn.
    + now constructor.
    + symmetry. apply Permutation_cons_app. now symmetry.
  - intros l2. unfold generalized_cards. rewrite filter_In, Hc.
    now rewrite negb_false_iff.
  - intros l2. unfold application_specific_cards. rewrite filter_In, Hc.
    now rewrite negb_true_iff.
  - intros l2. unfold is_generalized, truthy, indexOf.
    rewrite negb_involutive, Z.eqb_eq.
    destruct (purpose l2) as [|y a]; cbn.
    + split; [discriminate | intros [rest H]; discriminate H].
    + destruct (String.eqb_spec y "universal") as [->|Hne].
      * split; [intros _; now exists a | reflexivity].
      * split.
        -- intros H.
           destruct (indexOf_from_range a "universal" 1); lia.
        -- intros [rest H]. injection H as H _. contradiction.
  - reflexivity.
Qed.

(** * Further properties of the derivations *)

(** *** Rounding never yields NaN *)

Lemma iter_pos_invariant {A : Type} (f : A -> A) (P : A -> Prop) :
  (forall x, P x -> P (f x)) ->
  forall n x, P x -> P (SpecFloat.iter_pos f n x).
Proof.
  intros Hf. induction n as [n IH | n IH |]; intros x Hx; cbn; auto.
Qed.

Lemma shr_1_nonneg (mrs : shr_record) :
  (0 <= shr_m mrs)%Z -> (0 <= shr_m (shr_1 mrs))%Z.
Proof.
  destruct mrs as [m r s]. destruct m as [|p|p]; cbn; intros H;
    try lia; destruct p; cbn; lia.
Qed.

Lemma shr_nonneg (mrs : shr_record) (e n : Z) :
  (0 <= shr_m mrs)%Z -> (0 <= shr_m (fst (shr mrs e n)))%Z.
Proof.
  intros H. unfold shr. destruct n as [|p|p]; cbn; auto.
  apply iter_pos_invariant; auto using shr_1_nonneg.
Qed.

Lemma shr_fexp_nonneg (m e : Z) (l : location) :
  (0 <= m)%Z -> (0 <= shr_m (fst (shr_fexp prec emax m e l)))%Z.
Proof.
  intros H. unfold shr_fexp. apply shr_nonneg.
  destruct l as [|[]]; exact H.
Qed.

Lemma round_nearest_even_nonneg (mx : Z) (lx : location) :
  (0 <= mx)%Z -> (0 <= round_nearest_even mx lx)%Z.
Proof.
  intros H. unfold round_nearest_even.
  destruct lx as [|[]]; try destruct (Z.even mx); lia.
Qed.

(** Rounding a mantissa that is not negative gives a number of the sign
    asked for, never NaN. *)
Lemma binary_round_aux_sign (sx : bool) (mx ex : Z) (lx : location) :
  (0 <= mx)%Z ->
  has_sign sx (binary_round_aux prec emax sx mx ex lx) = true.
Proof.
  intros H. unfold binary_round_aux.
  pose proof (shr_fexp_nonneg mx ex lx H) as H1.
  destruct (shr_fexp prec emax mx ex lx) as [mrs' e']. cbn [fst] in H1.
  pose proof (shr_fexp_nonneg
                (round_nearest_even (shr_m mrs') (loc_of_shr_record mrs'))
                e' loc_Exact
                (round_nearest_even_nonneg _ _ H1)) as H2.
  destruct (shr_fexp prec emax
              (round_nearest_even (shr_m mrs') (loc_of_shr_record mrs'))
              e' loc_Exact) as [mrs'' e''].
  cbn [fst] in H2.
  destruct (shr_m mrs'') as [|m|m]; [| |lia]; cbn.
  - apply eqb_reflx.
  - destruct (e'' <=? _)%Z; cbn; apply eqb_reflx.
Qed.

Lemma binary_round_sign (sx : bool) (m : positive) (e : Z) :
  has_sign sx (binary_round prec emax sx m e) = true.
Proof.
  unfold binary_round.
  destruct (shl_align m e (fexp prec emax (Z.pos (digits2_pos m) + e)))
    as [mz ez].
  apply binary_round_aux_sign. lia.
Qed.

Lemma binary_normalize_not_nan (m e : Z) :
  is_nan (binary_normalize prec emax m e false) = false.
Proof.
  destruct m as [|p|p]; cbn [binary_normalize]; [reflexivity| |].
  - pose proof (binary_round_sign false p e) as H.
    now destruct (binary_round prec emax false p e).
  - pose proof (binary_round_sign true p e) as H.
    now destruct (binary_round prec emax true p e).
Qed.

Lemma has_sign_nonneg (x : number) : has_sign false x = true -> nonneg x = true.
Proof. destruct x as [s|s| |s m e]; cbn; try destruct s; auto. Qed.

Lemma has_sign_not_nan (sx : bool) (x : number) :
  has_sign sx x = true -> is_nan x = false.
Proof. now destruct x. Qed.

(** *** Sums and quotients of numbers that are not negative *)

Lemma add_nonneg (a b : number) :
  nonneg a = true -> finite_nonneg b = true -> nonneg (add a b) = true.
Proof.
  destruct a as [sa|sa| |sa ma ea], b as [sb|sb| |sb mb eb];
    cbn [nonneg finite_nonneg]; intros Ha Hb;
    try discriminate; try (destruct sa; discriminate);
    try (destruct sb; discriminate).
  - now destruct sa, sb.
  - destruct sb; [discriminate | reflexivity].
  - destruct sa; [discriminate | reflexivity].
  - destruct sa; [discriminate | reflexivity].
  - destruct sa; [discriminate | reflexivity].
  - destruct sa; [discriminate|]. destruct sb; [discriminate|].
    unfold add, SFadd. cbn [cond_Zopp Z.add binary_normalize].
    apply has_sign_nonneg, binary_round_sign.
Qed.

Lemma fold_add_nonneg (l : list CryptoStats.FeeEntry) (acc : number) :
  nonneg acc = true ->
  forallb (fun e => finite_nonneg (fee_of e)) l = true ->
  nonneg
    (fold_left
       (fun acc curr =>
          add acc (CryptoStats.feeTransferEth (CryptoStats.results curr)))
       l acc) = true.
Proof.
  revert acc. induction l as [|e l IH]; intros acc Ha Hl; [exact Ha|].
  cbn in Hl. apply andb_true_iff in Hl as [He Hl].
  cbn [fold_left]. apply IH; [|exact Hl]. now apply add_nonneg.
Qed.

Lemma div_nonneg (a : number) (m : positive) (e : Z) :
  nonneg a = true -> nonneg (div a (S754_finite false m e)) = true.
Proof.
  destruct a as [sa|sa| |sa ma ea]; cbn [nonneg]; intros Ha;
    try discriminate.
  - reflexivity.
  - destruct sa; [discriminate | reflexivity].
  - destruct sa; [discriminate|].
    unfold div, SFdiv, SFdiv_core_binary.
    match goal with
    | |- context [Z.div_eucl ?a ?b] =>
        pose proof (Z.div_pos a b) as Hq; unfold Z.div in Hq;
        destruct (Z.div_eucl a b) as [q r] eqn:E
    end.
    cbn [xorb]. apply has_sign_nonneg, binary_round_aux_sign.
    apply Hq; [|lia].
    match goal with
    | |- (0 <= match ?s with _ => _ end)%Z =>
        destruct s; [lia | apply Z.shiftl_nonneg; lia | lia]
    end.
Qed.

(** *** Array lengths as numbers *)

Lemma digits2_pos_iter_xO (p k : positive) :
  digits2_pos (Pos.iter xO p k) = (digits2_pos p + k)%positive.
Proof.
  induction k as [|k IH] using Pos.peano_ind.
  - cbn. now rewrite Pos.add_1_r.
  - rewrite Pos.iter_succ. cbn [digits2_pos]. rewrite IH.
    now rewrite Pos.add_succ_r.
Qed.

Lemma digits2_pos_lower (p : positive) :
  (2 ^ (Z.pos (digits2_pos p) - 1) <= Z.pos p)%Z.
Proof.
  induction p as [p IH | p IH |]; cbn [digits2_pos]; [| |cbn; lia].
  - rewrite Pos2Z.inj_succ.
    replace (Z.succ (Z.pos (digits2_pos p)) - 1)%Z
      with (Z.succ (Z.pos (digits2_pos p) - 1))%Z by lia.
    rewrite Z.pow_succ_r by lia. lia.
  - rewrite Pos2Z.inj_succ.
    replace (Z.succ (Z.pos (digits2_pos p)) - 1)%Z
      with (Z.succ (Z.pos (digits2_pos p) - 1))%Z by lia.
    rewrite Z.pow_succ_r by lia. lia.
Qed.

Lemma digits2_pos_small (p : positive) :
  (Z.pos p < 2 ^ 53)%Z -> (Z.pos (digits2_pos p) <= 53)%Z.
Proof.
  intros H. pose proof (digits2_pos_lower p) as L.
  destruct (Z_le_gt_dec (Z.pos (digits2_pos p)) 53) as [|G]; [assumption|].
  assert (2 ^ 53 <= 2 ^ (Z.pos (digits2_pos p) - 1))%Z
    by (apply Z.pow_le_mono_r; lia).
  lia.
Qed.

Lemma binary_round_aux_exact (sx : bool) (mz : positive) (ez : Z) :
  digits2_pos mz = 53%positive ->
  (-1074 <= ez <= 971)%Z ->
  binary_round_aux prec emax sx (Z.pos mz) ez loc_Exact
  = S754_finite sx mz ez.
Proof.
  intros Hd He.
  assert (F : (fexp prec emax (Z.pos (digits2_pos mz) + ez) - ez = 0)%Z).
  { rewrite Hd. unfold fexp, emin, prec, emax. lia. }
  unfold binary_round_aux, shr_fexp, Zdigits2. rewrite F.
  cbn [shr shr_record_of_loc shr_m loc_of_shr_record round_nearest_even].
  rewrite F. cbn [shr shr_record_of_loc shr_m].
  replace (ez <=? emax - prec)%Z with true; [reflexivity|].
  symmetry. apply Z.leb_le. unfold emax, prec. lia.
Qed.

(** A length below [2^53] is a finite number above zero. *)
Lemma of_Z_pos_finite (p : positive) :
  (Z.pos p < 2 ^ 53)%Z ->
  exists m e, of_Z (Z.pos p) = S754_finite false m e.
Proof.
  intros H. apply digits2_pos_small in H.
  unfold of_Z. cbn [binary_normalize]. unfold binary_round.
  assert (F : fexp prec emax (Z.pos (digits2_pos p) + 0)
              = (Z.pos (digits2_pos p) - 53)%Z).
  { unfold fexp, emin, prec, emax.
    pose proof (Pos2Z.is_pos (digits2_pos p)). lia. }
  rewrite F. unfold shl_align.
  destruct (Z.pos (digits2_pos p) - 53 - 0)%Z as [|k|k] eqn:E; [|lia|].
  - exists p, 0%Z. apply binary_round_aux_exact; [|lia].
    apply Pos2Z.inj. lia.
  - exists (Pos.iter xO p k), (Z.pos (digits2_pos p) - 53)%Z.
    apply binary_round_aux_exact.
    + rewrite digits2_pos_iter_xO. apply Pos2Z.inj.
      rewrite Pos2Z.inj_add. lia.
    + pose proof (Pos2Z.is_pos (digits2_pos p)). lia.
Qed.

Lemma sub_finite_not_nan (a b : number) :
  is_finite a = true -> is_finite b = true -> is_nan (sub a b) = false.
Proof.
  destruct a as [sa|sa| |sa ma ea], b as [sb|sb| |sb mb eb];
    cbn [is_finite]; intros Ha Hb; try discriminate.
  - now destruct sa, sb.
  - reflexivity.
  - reflexivity.
  - unfold sub, SFsub. apply binary_normalize_not_nan.
Qed.

Lemma div_by_finite_not_nan (a : number) (s : bool) (m : positive) (e : Z) :
  is_nan a = false -> is_nan (div a (S754_finite s m e)) = false.
Proof.
  destruct a as [sa|sa| |sa ma ea]; cbn [is_nan]; intros Ha;
    try discriminate; try reflexivity.
  unfold div, SFdiv, SFdiv_core_binary.
  match goal with
  | |- context [Z.div_eucl ?a ?b] =>
      pose proof (Z.div_pos a b) as Hq; unfold Z.div in Hq;
      destruct (Z.div_eucl a b) as [q r] eqn:E
  end.
  apply has_sign_not_nan with (sx := xorb sa s).
  apply binary_round_aux_sign. apply Hq; [|lia].
  match goal with
  | |- (0 <= match ?s with _ => _ end)%Z =>
      destruct s; [lia | apply Z.shiftl_nonneg; lia | lia]
  end.
Qed.

Lemma mul_by_finite_not_nan (a : number) (s : bool) (m : positive) (e : Z) :
  is_nan a = false -> is_nan (mul a (S754_finite s m e)) = false.
Proof.
  destruct a as [sa|sa| |sa ma ea]; cbn [is_nan]; intros Ha;
    try discriminate; try reflexivity.
  unfold mul, SFmul.
  apply has_sign_not_nan with (sx := xorb sa s).
  apply binary_round_aux_sign. lia.
Qed.

Lemma of_Z_100 : of_Z 100 = S754_finite false 7036874417766400 (-46).
Proof. reflexivity. Qed.

(** The percentage is NaN only on degenerate input. *)
Lemma percent_change_not_nan (v_last v_prior : number) :
  is_finite v_last = true -> is_finite v_prior = true ->
  is_zero v_prior = false ->
  is_nan (percent_change v_last v_prior) = false.
Proof.
  intros Hl Hp Hz. unfold percent_change. rewrite of_Z_100.
  apply mul_by_finite_not_nan.
  pose proof (sub_finite_not_nan v_last v_prior Hl Hp) as Hs.
  destruct v_prior as [sp|sp| |sp mp ep]; try discriminate.
  now apply div_by_finite_not_nan.
Qed.

(** A window that ends where it started has a percentage of zero. *)
Lemma percent_change_flat (s : bool) (m : positive) (e : Z) :
  is_zero
    (percent_change (S754_finite s m e) (S754_finite s m e)) = true.
Proof.
  unfold percent_change. rewrite of_Z_100.
  assert (E : sub (S754_finite s m e) (S754_finite s m e) = S754_zero false).
  { unfold sub, SFsub. now rewrite Z.sub_diag. }
  rewrite E. reflexivity.
Qed.

Lemma render_zero (pc : number) :
  is_zero pc = true -> render pc = "0.00%".
Proof. destruct pc as [s|s| |s m e]; try discriminate. reflexivity. Qed.

Lemma render_minus (pc : number) :
  starts_with_minus (render pc) = ltb pc zero.
Proof.
  unfold render_percent.
  destruct pc as [s|s| |s m e]; try reflexivity; now destruct s.
Qed.

Lemma render_NaN (pc : number) :
  String.eqb (render pc) "NaN%" = is_nan pc.
Proof.
  unfold render_percent.
  destruct pc as [s|s| |s m e]; try reflexivity; now destruct s.
Qed.

(** *** Order of binary64 values and the sign of their difference *)

Lemma digits2_pos_upper (p : positive) :
  (Z.pos p < 2 ^ Z.pos (digits2_pos p))%Z.
Proof.
  induction p as [p IH | p IH |]; cbn [digits2_pos]; [| |cbn; lia];
    rewrite Pos2Z.inj_succ, Z.pow_succ_r by lia; lia.
Qed.

Lemma iter_xO_value (m d : positive) :
  Z.pos (Pos.iter xO m d) = (Z.pos m * 2 ^ Z.pos d)%Z.
Proof.
  induction d as [|d IH] using Pos.peano_ind.
  - cbn. lia.
  - rewrite Pos.iter_succ, Pos2Z.inj_succ, Z.pow_succ_r by lia.
    rewrite Pos2Z.inj_xO, IH. lia.
Qed.

Lemma shl_align_value (m : positive) (e ez : Z) :
  (ez <= e)%Z ->
  Z.pos (fst (shl_align m e ez)) = (Z.pos m * 2 ^ (e - ez))%Z.
Proof.
  intros H. unfold shl_align.
  destruct (ez - e)%Z as [|d|d] eqn:E; [|lia|]; cbn [fst].
  - replace (e - ez)%Z with 0%Z by lia. cbn. lia.
  - rewrite iter_xO_value. f_equal. f_equal. lia.
Qed.

Lemma bounded_digits (m : positive) (e : Z) :
  bounded prec emax m e = true ->
  (Z.pos (digits2_pos m) <= 53)%Z /\
  (-1074 <= e)%Z /\
  (-1074 < e -> Z.pos (digits2_pos m) = 53)%Z.
Proof.
  unfold bounded, canonical_mantissa, fexp, emin, prec, emax.
  intros H. apply andb_true_iff in H as [H _]. apply Z.eqb_eq in H. lia.
Qed.

(** For two stored values above zero, [<] is the order of the mantissas once
    they are brought to the same exponent. *)
Lemma ltb_aligned (mp ml : positive) (ep el : Z) :
  bounded prec emax mp ep = true ->
  bounded prec emax ml el = true ->
  ltb (S754_finite false mp ep) (S754_finite false ml el) = true ->
  (Z.pos mp * 2 ^ (ep - Z.min el ep)
   < Z.pos ml * 2 ^ (el - Z.min el ep))%Z.
Proof.
  intros Bp Bl H.
  destruct (bounded_digits mp ep Bp) as (Dp & Ep & _).
  destruct (bounded_digits ml el Bl) as (_ & _ & Dl).
  unfold ltb, SFltb, SFcompare in H.
  destruct (Z.compare_spec ep el) as [E|E|E]; [| |discriminate H].
  - subst el. rewrite Z.min_id, Z.sub_diag, Z.pow_0_r.
    destruct (Pos.compare_cont Eq mp ml) eqn:C; try discriminate H.
    change (Pos.compare_cont Eq mp ml) with (Pos.compare mp ml) in C.
    rewrite !Z.mul_1_r. exact C.
  - rewrite Z.min_r by lia. rewrite Z.sub_diag, Z.pow_0_r.
    pose proof (digits2_pos_upper mp) as Up.
    pose proof (digits2_pos_lower ml) as Ll.
    rewrite (Dl ltac:(lia)) in Ll. cbn in Ll.
    assert (Hp : (2 ^ Z.pos (digits2_pos mp) <= 2 ^ 53)%Z)
      by (apply Z.pow_le_mono_r; lia).
    assert (H2 : (2 ^ 1 <= 2 ^ (el - ep))%Z)
      by (apply Z.pow_le_mono_r; lia).
    cbn in Hp, H2. nia.
Qed.

(** The difference of a larger and a smaller stored value above zero is
    not negative and not NaN; the other way round it has the sign bit. *)
Lemma sub_sign_of_order (a b : number) :
  positive_value a = true -> positive_value b = true ->
  (ltb b a = true -> has_sign false (sub a b) = true) /\
  (ltb a b = true -> has_sign true (sub a b) = true).
Proof.
  destruct a as [sa|sa| |[] ma ea]; try discriminate.
  destruct b as [sb|sb| |[] mb eb]; try discriminate.
  cbn [positive_value]. intros Ba Bb.
  assert (Ha : Z.pos (fst (shl_align ma ea (Z.min ea eb)))
               = (Z.pos ma * 2 ^ (ea - Z.min ea eb))%Z)
    by (apply shl_align_value; lia).
  assert (Hb : Z.pos (fst (shl_align mb eb (Z.min ea eb)))
               = (Z.pos mb * 2 ^ (eb - Z.min ea eb))%Z)
    by (apply shl_align_value; lia).
  unfold sub, SFsub. cbn [cond_Zopp]. rewrite Ha, Hb. split; intros H.
  - pose proof (ltb_aligned mb ma eb ea Bb Ba H) as L.
    destruct (Z.pos ma * 2 ^ (ea - Z.min ea eb)
              - Z.pos mb * 2 ^ (eb - Z.min ea eb))%Z as [|d|d] eqn:E;
      try lia.
    cbn [binary_normalize]. apply binary_round_sign.
  - pose proof (ltb_aligned ma mb ea eb Ba Bb H) as L.
    rewrite (Z.min_comm eb ea) in L.
    destruct (Z.pos ma * 2 ^ (ea - Z.min ea eb)
              - Z.pos mb * 2 ^ (eb - Z.min ea eb))%Z as [|d|d] eqn:E;
      try lia.
    cbn [binary_normalize]. apply binary_round_sign.
Qed.

Lemma div_sign (sa s : bool) (a : number) (m : positive) (e : Z) :
  has_sign sa a = true ->
  has_sign (xorb sa s) (div a (S754_finite s m e)) = true.
Proof.
  destruct a as [s0|s0| |s0 ma ea]; cbn [has_sign]; intros Ha;
    try discriminate; apply eqb_prop in Ha; subst s0;
    try (cbn; apply eqb_reflx).
  unfold div, SFdiv, SFdiv_core_binary.
  match goal with
  | |- context [Z.div_eucl ?a ?b] =>
      pose proof (Z.div_pos a b) as Hq; unfold Z.div in Hq;
      destruct (Z.div_eucl a b) as [q r] eqn:E
  end.
  apply binary_round_aux_sign. apply Hq; [|lia].
  match goal with
  | |- (0 <= match ?s with _ => _ end)%Z =>
      destruct s; [lia | apply Z.shiftl_nonneg; lia | lia]
  end.
Qed.

Lemma mul_sign (sa s : bool) (a : number) (m : positive) (e : Z) :
  has_sign sa a = true ->
  has_sign (xorb sa s) (mul a (S754_finite s m e)) = true.
Proof.
  destruct a as [s0|s0| |s0 ma ea]; cbn [has_sign]; intros Ha;
    try discriminate; apply eqb_prop in Ha; subst s0;
    try (cbn; apply eqb_reflx).
  unfold mul, SFmul. apply binary_round_aux_sign. lia.
Qed.

(** The percentage has the sign of the change. *)
Lemma percent_change_sign (v_last v_prior : number) :
  positive_value v_last = true -> positive_value v_prior = true ->
  (gtb v_last v_prior = true ->
   has_sign false (percent_change v_last v_prior) = true) /\
  (ltb v_last v_prior = true ->
   has_sign true (percent_change v_last v_prior) = true).
Proof.
  intros Pl Pp.
  destruct (sub_sign_of_order v_last v_prior Pl Pp) as [Hup Hdown].
  unfold percent_change. rewrite of_Z_100.
  destruct v_prior as [sp|sp| |[] mp ep]; try discriminate.
  split; intros H.
  - apply (mul_sign false false), (div_sign false false), Hup, H.
  - apply (mul_sign true false), (div_sign true false), Hdown, H.
Qed.

Lemma has_sign_false_not_below (x : number) :
  has_sign false x = true -> ltb x zero = false.
Proof. destruct x as [[]|[]| |[] m e]; cbn; auto; discriminate. Qed.

Lemma has_sign_true_not_above (x : number) :
  has_sign true x = true -> gtb x zero = false.
Proof. destruct x as [[]|[]| |[] m e]; cbn; auto; discriminate. Qed.

(** *** Integers are added and divided exactly *)















(** *** The average fee *)


(** X4.  When at least one entry is left after the filter (fewer than
    [2^53] of them) and every fee left is zero or a finite number above zero,
    the average is not NaN and not negative, and it is what [averageFee] is
    set to, formatted. *)
Theorem average_fee_nonneg locale resp s :
  let feeData := feeData_of (CryptoStats.data resp) in
  feeData <> [] ->
  (Z.of_nat (List.length feeData) < 2 ^ 53)%Z ->
  forallb (fun e => finite_nonneg (fee_of e)) feeData = true ->
  nonneg (feeAverage_of feeData) = true /\
  is_nan (feeAverage_of feeData) = false /\
  averageFee
    (apply_effects s (trace (cryptostats locale (Fulfilled resp))))
  = format locale compact_usd (feeAverage_of feeData).
Proof.
  intros feeData Hne Hlen Hfees.
  assert (Hn : nonneg (feeAverage_of feeData) = true).
  { unfold feeAverage_of, of_nat.
    destruct (Z.of_nat (List.length feeData)) as [|p|p] eqn:E.
    - destruct feeData; [contradiction | discriminate E].
    - destruct (of_Z_pos_finite p Hlen) as (m & e & ->).
      apply div_nonneg. unfold fee_sum. now apply fold_add_nonneg.
    - lia. }
  split; [exact Hn|]. split; [|reflexivity].
  now destruct (feeAverage_of feeData) as [?|[]| |[]].
Qed.

(** X12.  Entries of the excluded identifier have no influence: adding or
    removing one anywhere in the list, whatever its fee (NaN and infinities
    included), changes nothing of what [fetchCryptoStats] does. *)
Theorem excluded_entry_is_ignored locale before h rest :
  CryptoStats.id h = excluded_id ->
  cryptostats locale
    (Fulfilled {| CryptoStats.data := (before ++ h :: rest)%list |})
  = cryptostats locale
      (Fulfilled {| CryptoStats.data := (before ++ rest)%list |}).
Proof.
  intros H. rewrite !cryptostats_fulfilled. cbn [CryptoStats.data].
  unfold feeData_of. rewrite !filter_app. cbn [filter].
  now rewrite H, String.eqb_refl.
Qed.

(** *** The percentage *)

(** X5.  On a series of at least 31 points whose last value and 30-back
    value are finite and whose 30-back value is not zero, the percentage is
    not NaN and the cell does not show ["NaN%"]. *)
Theorem percent_change_defined locale r p_last p_prior s :
  let d := dailyData_of r in
  let n := List.length d in
  31 <= n ->
  nth_error d (n - 1) = Some p_last ->
  nth_error d (n - 31) = Some p_prior ->
  is_finite (value p_last) = true ->
  is_finite (value p_prior) = true ->
  is_zero (value p_prior) = false ->
  let out :=
    percentChangeL2
      (apply_effects s (trace (l2beat locale (Fulfilled r)))) in
  is_nan (percent_change (value p_last) (value p_prior)) = false /\
  String.eqb out "NaN%" = false.
Proof.
  intros d n Hn Hl Hp Fl Fp Zp out.
  pose proof (percent_change_not_nan _ _ Fl Fp Zp) as H.
  split; [exact H|]. subst out.
  rewrite (l2beat_long locale r p_last p_prior Hn Hl Hp).
  cbn [trace fst]. unfold apply_effects.
  cbn [fold_left apply_effect percentChangeL2].
  now rewrite render_NaN.
Qed.

(** X6.  On a series of at least 31 points whose last value equals its
    30-back value, a finite number other than zero, the cell shows
    ["0.00%"], without a sign. *)
Theorem flat_window_renders_zero locale r p_last p_prior s :
  let d := dailyData_of r in
  let n := List.length d in
  31 <= n ->
  nth_error d (n - 1) = Some p_last ->
  nth_error d (n - 31) = Some p_prior ->
  value p_last = value p_prior ->
  is_finite (value p_prior) = true ->
  is_zero (value p_prior) = false ->
  percentChangeL2 (apply_effects s (trace (l2beat locale (Fulfilled r))))
  = "0.00%".
Proof.
  intros d n Hn Hl Hp Heq Fp Zp.
  rewrite (l2beat_long locale r p_last p_prior Hn Hl Hp).
  cbn [trace fst]. unfold apply_effects.
  cbn [fold_left apply_effect percentChangeL2].
  apply render_zero. rewrite Heq.
  destruct (value p_prior) as [sp|sp| |sp mp ep]; try discriminate.
  apply percent_change_flat.
Qed.

(** X7.  On a series of at least 31 points the cell starts with ["-"]
    exactly when the percentage is below zero; a negative percentage that
    rounds to zero still shows its sign. *)
Theorem negative_change_rendering locale r p_last p_prior s :
  let d := dailyData_of r in
  let n := List.length d in
  31 <= n ->
  nth_error d (n - 1) = Some p_last ->
  nth_error d (n - 31) = Some p_prior ->
  let percentage := percent_change (value p_last) (value p_prior) in
  let out :=
    percentChangeL2
      (apply_effects s (trace (l2beat locale (Fulfilled r)))) in
  starts_with_minus out = ltb percentage zero.
Proof.
  intros d n Hn Hl Hp percentage out.
  assert (E : out = render percentage).
  { subst out. now rewrite (l2beat_long locale r p_last p_prior Hn Hl Hp). }
  rewrite E. apply render_minus.
Qed.

(** X8.  What [fetchL2Beat] does depends on two numbers only: index 1 of
    the last point of [layers2s] and index 1 of the point 30 before it.
    Two responses of at least 31 points that agree on these set the cells to
    the same values, whatever their other points, timestamps, third
    components, lengths, and [combined] and [bridges] series. *)
Theorem fetchL2Beat_reads_two_values
    locale r r' p_last p_prior p_last' p_prior' s :
  31 <= List.length (dailyData_of r) ->
  31 <= List.length (dailyData_of r') ->
  nth_error (dailyData_of r) (List.length (dailyData_of r) - 1)
  = Some p_last ->
  nth_error (dailyData_of r) (List.length (dailyData_of r) - 31)
  = Some p_prior ->
  nth_error (dailyData_of r') (List.length (dailyData_of r') - 1)
  = Some p_last' ->
  nth_error (dailyData_of r') (List.length (dailyData_of r') - 31)
  = Some p_prior' ->
  value p_last = value p_last' ->
  value p_prior = value p_prior' ->
  let t := trace (l2beat locale (Fulfilled r)) in
  let t' := trace (l2beat locale (Fulfilled r')) in
  apply_effects s t = apply_effects s t' /\
  (forall c, writes c t = writes c t') /\
  logged t = logged t'.
Proof.
  intros Hn Hn' Hl Hp Hl' Hp' El Ep t t'. subst t t'.
  rewrite (l2beat_long locale r p_last p_prior Hn Hl Hp).
  rewrite (l2beat_long locale r' p_last' p_prior' Hn' Hl' Hp').
  rewrite El, Ep. split; [reflexivity|]. split; [|reflexivity].
  intros []; reflexivity.
Qed.

Lemma render_sign_clear (pc : number) :
  has_sign false pc = true ->
  starts_with_plus (render pc) = true \/ render pc = "0.00%".
Proof.
  destruct pc as [[]|[]| |[] m e]; cbn [has_sign Bool.eqb];
    try discriminate; intros _; (now left) || (now right).
Qed.

Lemma render_sign_set (pc : number) :
  has_sign true pc = true ->
  starts_with_minus (render pc) = true \/ render pc = "0.00%".
Proof.
  destruct pc as [[]|[]| |[] m e]; cbn [has_sign Bool.eqb];
    try discriminate; intros _; (now left) || (now right).
Qed.

(** X11.  The sign shown agrees with the direction of the change.  On a
    series of at least 31 points whose last value and 30-back value are
    binary64 values above zero: when the last value is the larger one the
    cell starts with ["+"] or is ["0.00%"], and never starts with ["-"];
    when it is the smaller one the cell starts with ["-"] or is ["0.00%"],
    and never starts with ["+"]. *)
Theorem sign_follows_direction locale r p_last p_prior s :
  let d := dailyData_of r in
  let n := List.length d in
  31 <= n ->
  nth_error d (n - 1) = Some p_last ->
  nth_error d (n - 31) = Some p_prior ->
  positive_value (value p_last) = true ->
  positive_value (value p_prior) = true ->
  let out :=
    percentChangeL2
      (apply_effects s (trace (l2beat locale (Fulfilled r)))) in
  (gtb (value p_last) (value p_prior) = true ->
   starts_with_minus out = false /\
   (starts_with_plus out = true \/ out = "0.00%")) /\
  (ltb (value p_last) (value p_prior) = true ->
   starts_with_plus out = false /\
   (starts_with_minus out = true \/ out = "0.00%")).
Proof.
  intros d n Hn Hl Hp Pl Pp out.
  assert (E : out = render (percent_change (value p_last) (value p_prior))).
  { subst out. now rewrite (l2beat_long locale r p_last p_prior Hn Hl Hp). }
  destruct (percent_change_sign _ _ Pl Pp) as [Hup Hdown].
  rewrite E. split; intros H.
  - split.
    + rewrite render_minus. apply has_sign_false_not_below, Hup, H.
    + apply render_sign_clear, Hup, H.
  - split.
    + rewrite render_plus. apply has_sign_true_not_above, Hdown, H.
    + apply render_sign_set, Hdown, H.
Qed.

(** *** The page over time *)

Lemma stats_ext (s1 s2 : Stats) :
  (forall c, read_cell c s1 = read_cell c s2) -> s1 = s2.
Proof.
  intros H. destruct s1 as [a1 b1 c1], s2 as [a2 b2 c2].
  pose proof (H TVL) as Ha. pose proof (H L2PercentChange) as Hb.
  pose proof (H AverageFee) as Hc. cbn in Ha, Hb, Hc. now subst.
Qed.

(** Two traces that set no cell in common can run in either order. *)
Lemma apply_effects_swap (s : Stats) (t1 t2 : list Effect) :
  (forall c, writes c t1 = [] \/ writes c t2 = []) ->
  apply_effects (apply_effects s t1) t2
  = apply_effects (apply_effects s t2) t1.
Proof.
  intros H. apply stats_ext. intros c.
  rewrite !apply_effects_last.
  destruct (H c) as [E|E]; rewrite E; reflexivity.
Qed.

Lemma derivations_disjoint locale1 l2 locale2 fee (c : Cell) :
  writes c (trace (l2beat locale1 l2)) = [] \/
  writes c (trace (cryptostats locale2 fee)) = [].
Proof.
  destruct c.
  - right. now destruct fee.
  - right. now destruct fee.
  - left. l2beat_cases locale1 l2; reflexivity.
Qed.

Lemma filter_swap {A} (f g : A -> bool) (l : list A) :
  filter f (filter g l) = filter g (filter f l).
Proof.
  induction l as [|x l IH]; cbn; [reflexivity|].
  destruct (f x) eqn:F, (g x) eqn:G; cbn; rewrite ?F, ?G, IH; reflexivity.
Qed.

Lemma find_l2beat_after (c1 c2 : nat) (l : list Pending) :
  find (is_l2beat c1) (filter (fun q => negb (is_cryptostats c2 q)) l)
  = find (is_l2beat c1) l.
Proof.
  induction l as [|q l IH]; cbn; [reflexivity|].
  destruct q as [c loc | c loc]; cbn.
  - now destruct (Nat.eqb c1 c).
  - destruct (Nat.eqb c2 c); cbn; exact IH.
Qed.

Lemma find_cryptostats_after (c1 c2 : nat) (l : list Pending) :
  find (is_cryptostats c2) (filter (fun q => negb (is_l2beat c1 q)) l)
  = find (is_cryptostats c2) l.
Proof.
  induction l as [|q l IH]; cbn; [reflexivity|].
  destruct q as [c loc | c loc]; cbn.
  - destruct (Nat.eqb c1 c); cbn; exact IH.
  - now destruct (Nat.eqb c2 c).
Qed.

(** X9.  The two kinds of request can settle in either order: from any page,
    settling an L2Beat request and then a CryptoStats request is possible
    exactly when the other order is, and both orders leave the same three
    cells and the same requests in flight. *)
Theorem settle_order_irrelevant pg c1 r1 c2 r2 :
  option_map (fun p => (stats p, pending p))
    (run Number_toString NumberFormat_format getLocaleForNumberFormat pg
       [SettleL2Beat c1 r1; SettleCryptoStats c2 r2])
  = option_map (fun p => (stats p, pending p))
      (run Number_toString NumberFormat_format getLocaleForNumberFormat pg
         [SettleCryptoStats c2 r2; SettleL2Beat c1 r1]).
Proof.
  cbn [run step].
  destruct (find (is_l2beat c1) (pending pg)) as [p1|] eqn:F1;
    destruct (find (is_cryptostats c2) (pending pg)) as [p2|] eqn:F2;
    cbn [resume pending stats];
    rewrite ?find_l2beat_after, ?find_cryptostats_after, ?F1, ?F2;
    try reflexivity.
  cbn [option_map resume stats pending]. f_equal. f_equal.
  - apply apply_effects_swap. intros c. apply derivations_disjoint.
  - apply filter_swap.
Qed.

End Facts.

(** * The claims on concrete inputs *)

(** C1 on a series of one point: the hypothesis holds and the theorem
    applies. *)
Lemma fetchL2Beat_short_series_witness :
  List.length (dailyData_of Sample.one_point) < 31 /\
  (let m := Sample.fetchL2Beat "en" (Fulfilled Sample.one_point) in
   logged (trace m) = [TypeError_undefined] /\
   fails_with "DataInsufficient" (trace m) = false /\
   reads_in_range (trace m) = false /\
   completion m = Normal tt /\
   tvl (apply_effects initial_stats (trace m)) = error_text /\
   percentChangeL2 (apply_effects initial_stats (trace m)) = error_text).
Proof.
  assert (H : List.length (dailyData_of Sample.one_point) < 31)
    by (cbn; lia).
  split; [exact H|].
  exact (fetchL2Beat_short_series Sample.Number_toString
           Sample.NumberFormat_format "en" Sample.one_point initial_stats H).
Defined.

(** C1 as stated fails on a series of one point: the look-back reads index
    -30 of an array of length 1, and the error that is caught and logged is a
    TypeError; no DataInsufficient error exists. *)
Lemma short_series_raises_TypeError :
  let m := Sample.fetchL2Beat "en" (Fulfilled Sample.one_point) in
  trace m
  = [ArrayGet 1 0; SetTVL "USD 5.00 (en)"; ArrayGet 1 0; ArrayGet 1 (-30);
     ConsoleError TypeError_undefined; SetTVL error_text;
     SetL2PercentChange error_text] /\
  out_of_range (ArrayGet 1 (-30)) = true /\
  reads_in_range (trace m) = false /\
  map name (logged (trace m)) = ["TypeError"] /\
  fails_with "DataInsufficient" (trace m) = false.
Proof. repeat split; reflexivity. Qed.

(** C2 on a list that holds the excluded entry only. *)
Lemma fetchCryptoStats_empty_remainder_witness :
  feeData_of (CryptoStats.data Sample.only_hermez) = [] /\
  (let m := Sample.fetchCryptoStats "en" (Fulfilled Sample.only_hermez) in
   feeAverage_of (feeData_of (CryptoStats.data Sample.only_hermez)) = NaN /\
   m = ([SetAverageFee (Sample.NumberFormat_format "en" compact_usd NaN)],
        Normal tt) /\
   logged (trace m) = []).
Proof.
  split; [reflexivity|].
  exact (fetchCryptoStats_empty_remainder Sample.NumberFormat_format "en"
           Sample.only_hermez eq_refl).
Defined.

(** C2 as stated fails on a list that holds the excluded entry only: the
    average is NaN, nothing is raised or logged, and the cell shows the
    formatted NaN. *)
Lemma empty_remainder_sets_NaN :
  let m := Sample.fetchCryptoStats "en" (Fulfilled Sample.only_hermez) in
  is_nan (feeAverage_of (feeData_of (CryptoStats.data Sample.only_hermez)))
  = true /\
  m = ([SetAverageFee "USD NaN (en)"], Normal tt) /\
  logged (trace m) = [] /\
  fails_with "DataInsufficient" (trace m) = false.
Proof. repeat split; reflexivity. Qed.

(** C3 on a page with two cycles in flight: the request of the superseded
    cycle 0 settles and writes. *)
Lemma settled_request_writes_witness :
  exists pg',
    Sample.step Sample.two_cycles_pending
      (SettleL2Beat 0 (Fulfilled Sample.flat)) = Some pg' /\
    In (PendingL2Beat 0 "en") (pending Sample.two_cycles_pending) /\
    tvl (stats pg') = "USD 7.00 (en)" /\
    last_writer TVL (history pg') = Some 0.
Proof.
  eexists. split; [reflexivity|].
  destruct (settled_request_writes Sample.Number_toString
              Sample.NumberFormat_format Sample.getLocaleForNumberFormat
              Sample.two_cycles_pending
              (SettleL2Beat 0 (Fulfilled Sample.flat)) _ eq_refl)
    as (locale & Hin & _ & _ & _ & Hw & _).
  split; [cbn; auto|]. split; [reflexivity | exact Hw].
Defined.

(** C3 as stated fails.  Cycle 0 starts in "en", the locale changes and
    cycle 1 starts in "de"; the request of cycle 1 settles first and sets the
    TVL cell; the request of the superseded cycle 0 settles afterwards and
    overwrites the cell with the value formatted for "en". *)
Lemma superseded_cycle_overwrites :
  exists pg1 pg2,
    Sample.run mounted [RunEffect "en"; RunEffect "de"]
    = Some Sample.two_cycles_pending /\
    Sample.step Sample.two_cycles_pending
      (SettleL2Beat 1 (Fulfilled Sample.flat)) = Some pg1 /\
    tvl (stats pg1) = "USD 7.00 (de)" /\
    last_writer TVL (history pg1) = Some 1 /\
    Sample.step pg1 (SettleL2Beat 0 (Fulfilled Sample.flat)) = Some pg2 /\
    tvl (stats pg2) = "USD 7.00 (en)" /\
    last_writer TVL (history pg2) = Some 0.
Proof. do 2 eexists. repeat split; reflexivity. Qed.

(** C4 on 31 points that rise from 100 to 150. *)
Lemma percent_change_rendering_witness :
  let d := dailyData_of Sample.rising in
  let out :=
    percentChangeL2
      (apply_effects initial_stats
         (trace (Sample.fetchL2Beat "en" (Fulfilled Sample.rising)))) in
  31 <= List.length d /\
  nth_error d (List.length d - 1) = Some (Sample.point 150) /\
  nth_error d (List.length d - 31) = Some (Sample.point 100) /\
  out = "+50.00%" /\
  starts_with_plus out = true /\
  is_fixed2_percent out = true.
Proof.
  intros d out.
  assert (H1 : 31 <= List.length d) by (cbn; lia).
  assert (H2 : nth_error d (List.length d - 1) = Some (Sample.point 150))
    by reflexivity.
  assert (H3 : nth_error d (List.length d - 31) = Some (Sample.point 100))
    by reflexivity.
  destruct (percent_change_rendering Sample.Number_toString
              Sample.NumberFormat_format "en" Sample.rising
              (Sample.point 150) (Sample.point 100) initial_stats H1 H2 H3)
    as (E & P & F).
  split; [exact H1|]. split; [exact H2|]. split; [exact H3|].
  split; [exact E|]. split; [exact P | exact (F eq_refl eq_refl)].
Defined.

(** C4 as stated fails on 31 points that are all 0: the percentage is
    [0 / 0], and the cell shows ["NaN%"], which has no decimals. *)
Lemma zero_prior_renders_NaN :
  let r := Sample.l2beat (repeat 0%Z 31) in
  let out :=
    percentChangeL2
      (apply_effects initial_stats
         (trace (Sample.fetchL2Beat "en" (Fulfilled r)))) in
  List.length (dailyData_of r) = 31 /\
  out = "NaN%" /\
  is_fixed2_percent out = false.
Proof. repeat split; reflexivity. Qed.

(** C5 on a rejected request and on a series of one point. *)
Lemma fetchL2Beat_failure_handled_witness :
  let e := {| name := "SyntaxError"; message := "Unexpected end of JSON input" |} in
  l2beat_failure (Rejected e) e /\
  l2beat_failure (Fulfilled Sample.one_point) TypeError_undefined /\
  (let m := Sample.fetchL2Beat "en" (Rejected e) in
   completion m = Normal tt /\
   logged (trace m) = [e] /\
   tvl (apply_effects initial_stats (trace m)) = error_text /\
   percentChangeL2 (apply_effects initial_stats (trace m)) = error_text) /\
  (let m := Sample.fetchL2Beat "en" (Fulfilled Sample.one_point) in
   completion m = Normal tt /\
   logged (trace m) = [TypeError_undefined] /\
   tvl (apply_effects initial_stats (trace m)) = error_text /\
   percentChangeL2 (apply_effects initial_stats (trace m)) = error_text).
Proof.
  intros e.
  assert (H1 : l2beat_failure (Rejected e) e) by constructor.
  assert (H2 : l2beat_failure (Fulfilled Sample.one_point)
                 TypeError_undefined)
    by (constructor; cbn; lia).
  split; [exact H1|]. split; [exact H2|]. split.
  - exact (fetchL2Beat_failure_handled Sample.Number_toString
             Sample.NumberFormat_format "en" _ _ initial_stats H1).
  - exact (fetchL2Beat_failure_handled Sample.Number_toString
             Sample.NumberFormat_format "en" _ _ initial_stats H2).
Defined.

(** C6 as stated fails on a series of one point: the TVL cell is set twice
    in the cycle, to a formatted value and then to the error text. *)
Lemma tvl_written_twice :
  let t :=
    fetch_cycle true
      (trace (Sample.fetchL2Beat "en" (Fulfilled Sample.one_point)))
      (trace (Sample.fetchCryptoStats "en" (Fulfilled Sample.only_hermez))) in
  writes TVL t = ["USD 5.00 (en)"; "Error, please refresh."] /\
  List.length (writes TVL t) = 2.
Proof. split; reflexivity. Qed.

(** C8 on 31 points that are all 7, and on a series of one point. *)
Lemma tvl_output_by_length_witness :
  let d := dailyData_of Sample.flat in
  nth_error d (List.length d - 1) = Some (Sample.point 7) /\
  31 <= List.length d /\
  tvl (apply_effects initial_stats
         (trace (Sample.fetchL2Beat "en" (Fulfilled Sample.flat))))
  = Sample.NumberFormat_format "en" compact_usd (of_Z 7) /\
  writes TVL (trace (Sample.fetchL2Beat "en" (Fulfilled Sample.flat)))
  = [Sample.NumberFormat_format "en" compact_usd (of_Z 7)].
Proof.
  intros d.
  assert (H : nth_error d (List.length d - 1) = Some (Sample.point 7))
    by reflexivity.
  assert (Hn : 31 <= List.length d) by (cbn; lia).
  destruct (tvl_output_by_length Sample.Number_toString
              Sample.NumberFormat_format "en" Sample.flat (Sample.point 7)
              initial_stats H)
    as (Hlong & _).
  destruct (Hlong Hn) as [Hw Ht].
  repeat split; assumption.
Defined.

(** C8 as stated fails on a series of one point: the series is not empty,
    and the TVL cell ends on the error text, not on the formatted value of
    its last point. *)
Lemma short_series_tvl_is_error :
  let d := dailyData_of Sample.one_point in
  let out :=
    tvl (apply_effects initial_stats
           (trace (Sample.fetchL2Beat "en" (Fulfilled Sample.one_point)))) in
  List.length d = 1 /\
  nth_error d 0 = Some (Sample.point 5) /\
  Sample.NumberFormat_format "en" compact_usd (value (Sample.point 5))
  = "USD 5.00 (en)" /\
  out = "Error, please refresh." /\
  String.eqb out
    (Sample.NumberFormat_format "en" compact_usd (value (Sample.point 5)))
  = false.
Proof. repeat split; reflexivity. Qed.

(** * The further properties on concrete inputs *)

(** X4 on the entries a:1, hermez:100, b:3. *)
Lemma average_fee_nonneg_witness :
  let feeData := feeData_of (CryptoStats.data Sample.three_fees) in
  feeData <> [] /\
  (Z.of_nat (List.length feeData) < 2 ^ 53)%Z /\
  forallb (fun e => finite_nonneg (fee_of e)) feeData = true /\
  nonneg (feeAverage_of feeData) = true /\
  is_nan (feeAverage_of feeData) = false /\
  averageFee
    (apply_effects initial_stats
       (trace (Sample.fetchCryptoStats "en" (Fulfilled Sample.three_fees))))
  = Sample.NumberFormat_format "en" compact_usd (feeAverage_of feeData).
Proof.
  intros feeData.
  assert (H1 : feeData <> []) by discriminate.
  assert (H2 : (Z.of_nat (List.length feeData) < 2 ^ 53)%Z) by reflexivity.
  assert (H3 : forallb (fun e => finite_nonneg (fee_of e)) feeData = true)
    by reflexivity.
  split; [exact H1|]. split; [exact H2|]. split; [exact H3|].
  exact (average_fee_nonneg Sample.NumberFormat_format "en"
           Sample.three_fees initial_stats H1 H2 H3).
Defined.

(** X5 on 31 points that rise from 100 to 150. *)
Lemma percent_change_defined_witness :
  let d := dailyData_of Sample.rising in
  31 <= List.length d /\
  nth_error d (List.length d - 1) = Some (Sample.point 150) /\
  nth_error d (List.length d - 31) = Some (Sample.point 100) /\
  is_finite (value (Sample.point 150)) = true /\
  is_finite (value (Sample.point 100)) = true /\
  is_zero (value (Sample.point 100)) = false /\
  is_nan (percent_change (value (Sample.point 150))
            (value (Sample.point 100))) = false /\
  String.eqb
    (percentChangeL2
       (apply_effects initial_stats
          (trace (Sample.fetchL2Beat "en" (Fulfilled Sample.rising)))))
    "NaN%" = false.
Proof.
  intros d.
  assert (H1 : 31 <= List.length d) by (cbn; lia).
  assert (H2 : nth_error d (List.length d - 1) = Some (Sample.point 150))
    by reflexivity.
  assert (H3 : nth_error d (List.length d - 31) = Some (Sample.point 100))
    by reflexivity.
  do 6 (split; [first [exact H1 | exact H2 | exact H3 | reflexivity]|]).
  exact (percent_change_defined Sample.Number_toString
           Sample.NumberFormat_format "en" Sample.rising
           (Sample.point 150) (Sample.point 100) initial_stats
           H1 H2 H3 eq_refl eq_refl eq_refl).
Defined.

(** X6 on 31 points that are all 7. *)
Lemma flat_window_renders_zero_witness :
  let d := dailyData_of Sample.flat in
  31 <= List.length d /\
  nth_error d (List.length d - 1) = Some (Sample.point 7) /\
  nth_error d (List.length d - 31) = Some (Sample.point 7) /\
  is_finite (value (Sample.point 7)) = true /\
  is_zero (value (Sample.point 7)) = false /\
  percentChangeL2
    (apply_effects initial_stats
       (trace (Sample.fetchL2Beat "en" (Fulfilled Sample.flat))))
  = "0.00%".
Proof.
  intros d.
  assert (H1 : 31 <= List.length d) by (cbn; lia).
  assert (H2 : nth_error d (List.length d - 1) = Some (Sample.point 7))
    by reflexivity.
  assert (H3 : nth_error d (List.length d - 31) = Some (Sample.point 7))
    by reflexivity.
  do 5 (split; [first [exact H1 | exact H2 | exact H3 | reflexivity]|]).
  exact (flat_window_renders_zero Sample.Number_toString
           Sample.NumberFormat_format "en" Sample.flat
           (Sample.point 7) (Sample.point 7) initial_stats
           H1 H2 H3 eq_refl eq_refl eq_refl).
Defined.

(** X7 on 31 points that fall from 150 to 100. *)
Lemma negative_change_rendering_witness :
  let d := dailyData_of Sample.falling in
  let out :=
    percentChangeL2
      (apply_effects initial_stats
         (trace (Sample.fetchL2Beat "en" (Fulfilled Sample.falling)))) in
  31 <= List.length d /\
  nth_error d (List.length d - 1) = Some (Sample.point 100) /\
  nth_error d (List.length d - 31) = Some (Sample.point 150) /\
  out = "-33.33%" /\
  starts_with_minus out
  = ltb (percent_change (value (Sample.point 100))
           (value (Sample.point 150))) zero.
Proof.
  intros d out.
  assert (H1 : 31 <= List.length d) by (cbn; lia).
  assert (H2 : nth_error d (List.length d - 1) = Some (Sample.point 100))
    by reflexivity.
  assert (H3 : nth_error d (List.length d - 31) = Some (Sample.point 150))
    by reflexivity.
  split; [exact H1|]. split; [exact H2|]. split; [exact H3|].
  split; [reflexivity|].
  exact (negative_change_rendering Sample.Number_toString
           Sample.NumberFormat_format "en" Sample.falling
           (Sample.point 100) (Sample.point 150) initial_stats H1 H2 H3).
Defined.

(** X8 on two responses that share only the two values read. *)
Lemma fetchL2Beat_reads_two_values_witness :
  let d := dailyData_of Sample.rising in
  let d' := dailyData_of Sample.rising_other in
  List.length d = 31 /\ List.length d' = 40 /\
  nth_error d' (List.length d' - 1)
  = Some ("2022-07-10", of_Z 150, of_Z 1) /\
  nth_error d' (List.length d' - 31)
  = Some ("2022-06-10", of_Z 100, of_Z 0) /\
  apply_effects initial_stats
    (trace (Sample.fetchL2Beat "en" (Fulfilled Sample.rising)))
  = apply_effects initial_stats
      (trace (Sample.fetchL2Beat "en" (Fulfilled Sample.rising_other))).
Proof.
  intros d d'.
  assert (H1 : 31 <= List.length d) by (cbn; lia).
  assert (H1' : 31 <= List.length d') by (cbn; lia).
  assert (H2 : nth_error d (List.length d - 1) = Some (Sample.point 150))
    by reflexivity.
  assert (H3 : nth_error d (List.length d - 31) = Some (Sample.point 100))
    by reflexivity.
  assert (H2' : nth_error d' (List.length d' - 1)
                = Some ("2022-07-10", of_Z 150, of_Z 1)) by reflexivity.
  assert (H3' : nth_error d' (List.length d' - 31)
                = Some ("2022-06-10", of_Z 100, of_Z 0)) by reflexivity.
  split; [reflexivity|]. split; [reflexivity|].
  split; [exact H2'|]. split; [exact H3'|].
  exact (proj1 (fetchL2Beat_reads_two_values Sample.Number_toString
                  Sample.NumberFormat_format "en" Sample.rising
                  Sample.rising_other _ _ _ _ initial_stats
                  H1 H1' H2 H3 H2' H3' eq_refl eq_refl)).
Defined.

(** X11 on 31 points that rise from 100 to 150 and on 31 points that fall
    from 150 to 100. *)
Lemma sign_follows_direction_witness :
  positive_value (of_Z 100) = true /\
  positive_value (of_Z 150) = true /\
  gtb (of_Z 150) (of_Z 100) = true /\
  ltb (of_Z 100) (of_Z 150) = true /\
  (let out :=
     percentChangeL2
       (apply_effects initial_stats
          (trace (Sample.fetchL2Beat "en" (Fulfilled Sample.rising)))) in
   starts_with_minus out = false /\
   (starts_with_plus out = true \/ out = "0.00%")) /\
  (let out :=
     percentChangeL2
       (apply_effects initial_stats
          (trace (Sample.fetchL2Beat "en" (Fulfilled Sample.falling)))) in
   starts_with_plus out = false /\
   (starts_with_minus out = true \/ out = "0.00%")).
Proof.
  do 4 (split; [reflexivity|]). split.
  - refine (proj1 (sign_follows_direction Sample.Number_toString
                     Sample.NumberFormat_format "en" Sample.rising
                     (Sample.point 150) (Sample.point 100) initial_stats
                     _ eq_refl eq_refl eq_refl eq_refl) eq_refl).
    cbn; lia.
  - refine (proj2 (sign_follows_direction Sample.Number_toString
                     Sample.NumberFormat_format "en" Sample.falling
                     (Sample.point 100) (Sample.point 150) initial_stats
                     _ eq_refl eq_refl eq_refl eq_refl) eq_refl).
    cbn; lia.
Defined.

(** X12 on an excluded entry whose fee is NaN, between two others. *)
Lemma excluded_entry_is_ignored_witness :
  let h :=
    {| CryptoStats.id := "hermez";
       CryptoStats.results := {| CryptoStats.feeTransferEth := NaN |} |} in
  CryptoStats.id h = excluded_id /\
  Sample.fetchCryptoStats "en"
    (Fulfilled
       {| CryptoStats.data := [Sample.fee "a" 1; h; Sample.fee "b" 3] |})
  = Sample.fetchCryptoStats "en"
      (Fulfilled
         {| CryptoStats.data := [Sample.fee "a" 1; Sample.fee "b" 3] |}).
Proof.
  intros h. split; [reflexivity|].
  exact (excluded_entry_is_ignored Sample.NumberFormat_format "en"
           [Sample.fee "a" 1] h [Sample.fee "b" 3] eq_refl).
Defined.


